(** * A shallow embedding of the rile editor core

    The editor state of [src/src/context.rs] with its buffers
    ([buffer.rs], [buffer_list.rs]), windows ([window.rs],
    [window_list.rs], [layout.rs]), the goal column, the command set of
    [commands.rs], one iteration of the event loop of [event_loop.rs] and
    the key model of [key.rs].

    Modelling conventions.
    - [usize] is [nat]; a subtraction that can underflow in the source is
      the checked subtraction [usub], and an underflow is a panic (the
      behaviour of a debug build).
    - A line is the byte sequence of its UTF-8 [String] ([list byte]).
      Columns are byte indices (the editor's byte-indexed policy); a
      character of a line is taken to be one byte, so [String::remove] and
      [String::insert] at a column remove or insert one byte.
    - Stateful code runs in a state monad over the editor state with
      failure: [None] is a panic (an out-of-range [Vec] index, an
      [unwrap] of [None], an underflow). *)

From Stdlib Require Import String List Arith Lia Bool NArith.
From Stdlib Require Import Strings.Byte.
Import ListNotations.

Open Scope list_scope.

(** ** Panics *)

Definition obind {A B} (a : option A) (f : A -> option B) : option B :=
  match a with Some x => f x | None => None end.

Notation "'let?' x := a 'in' b" := (obind a (fun x => b))
  (at level 200, x name, a at level 100, b at level 200).
Notation "'let?' ' p := a 'in' b" :=
  (obind a (fun y => match y with p => b end))
  (at level 200, p pattern, a at level 100, b at level 200).

(** ** Vectors and strings *)

Definition line := list byte.

(** The byte sequence of a string literal. *)
Definition lit (s : String.string) : list byte := String.list_byte_of_string s.

(** [a - b] on [usize], panicking on underflow. *)
Definition usub (a b : nat) : option nat :=
  if b <=? a then Some (a - b) else None.

(** [v[i]] on a [Vec]: panics out of range. *)
Definition vec_index {A} (v : list A) (i : nat) : option A := nth_error v i.

(** [v[i] = x] on a [Vec]: panics out of range. *)
Fixpoint vec_set {A} (v : list A) (i : nat) (x : A) : option (list A) :=
  match v, i with
  | [], _ => None
  | _ :: t, 0 => Some (x :: t)
  | y :: t, S i' => option_map (cons y) (vec_set t i' x)
  end.

(** [Vec::remove(i)]: returns the removed element; panics if [i >= len]. *)
Fixpoint vec_remove {A} (v : list A) (i : nat) : option (A * list A) :=
  match v, i with
  | [], _ => None
  | y :: t, 0 => Some (y, t)
  | y :: t, S i' =>
      match vec_remove t i' with
      | Some (r, t') => Some (r, y :: t')
      | None => None
      end
  end.

(** Removal of the single byte at [idx], the "remove that byte" of the
    spec's [remove_char_at]; panics if [idx >= len]. *)
Definition string_remove (s : line) (idx : nat) : option line :=
  match vec_remove s idx with
  | Some (_, s') => Some s'
  | None => None
  end.

(** [str::is_char_boundary]: [0], [len], or a byte that does not continue
    a UTF-8 sequence ([(b as i8) >= -0x40]). *)
Definition is_char_boundary (s : line) (idx : nat) : bool :=
  (idx =? 0) ||
  match nth_error s idx with
  | Some b => (Byte.to_nat b <? 128) || (192 <=? Byte.to_nat b)
  | None => idx =? length s
  end.

(** [char::len_utf8] of the character whose UTF-8 encoding starts with
    the byte [b] (the lead bytes of a [str]). *)
Definition utf8_width (b : byte) : nat :=
  let n := Byte.to_nat b in
  if n <? 128 then 1 else if n <? 224 then 2 else if n <? 240 then 3 else 4.

(** [String::remove(idx)]: [self[idx..]] panics off a character boundary,
    [.chars().next()] is [None] at the end of the string (panic), and the
    [len_utf8] bytes of the character starting at [idx] are removed. *)
Definition string_remove_char (s : line) (idx : nat) : option line :=
  if is_char_boundary s idx then
    match nth_error s idx with
    | Some b => Some (firstn idx s ++ skipn (idx + utf8_width b) s)
    | None => None
    end
  else None.

(** [str.split('\n')]: always non-empty, a trailing newline gives an empty
    last element. *)
Fixpoint split_nl (s : list byte) : list line :=
  match s with
  | [] => [[]]
  | c :: t =>
      if Byte.eqb c x0a then [] :: split_nl t
      else match split_nl t with
           | w :: ws => (c :: w) :: ws
           | [] => [[c]]
           end
  end.

(** [lines.join("\n")]. *)
Fixpoint join_nl (ls : list line) : list byte :=
  match ls with
  | [] => []
  | [l] => l
  | l :: ls' => l ++ x0a :: join_nl ls'
  end.

(** [char::is_whitespace]: the characters with the Unicode [White_Space]
    property, U+0009..U+000D, U+0020, U+0085, U+00A0, U+1680,
    U+2000..U+200A, U+2028, U+2029, U+202F, U+205F and U+3000. *)
Definition is_whitespace (c : N) : bool :=
  ((9 <=? c) && (c <=? 13))%N || (c =? 32)%N || (c =? 133)%N || (c =? 160)%N ||
  (c =? 5760)%N || ((8192 <=? c) && (c <=? 8202))%N || (c =? 8232)%N ||
  (c =? 8233)%N || (c =? 8239)%N || (c =? 8287)%N || (c =? 12288)%N.

(** [str::chars]: the scalar values of a UTF-8 string, decoded from its
    lead bytes ([utf8_width]) and continuation bytes. A [str] is always
    valid UTF-8; a truncated sequence, which it never holds, decodes here
    to its lead byte. *)
Fixpoint chars (l : list byte) : list N :=
  match l with
  | [] => []
  | b :: t =>
      let n := N.of_nat (Byte.to_nat b) in
      let cont (c : byte) := N.land (N.of_nat (Byte.to_nat c)) 63 in
      if (n <? 128)%N then n :: chars t
      else if (n <? 224)%N then
        match t with
        | c1 :: t1 => N.lor (N.shiftl (N.land n 31) 6) (cont c1) :: chars t1
        | [] => [n]
        end
      else if (n <? 240)%N then
        match t with
        | c1 :: c2 :: t2 =>
            N.lor (N.shiftl (N.land n 15) 12)
              (N.lor (N.shiftl (cont c1) 6) (cont c2)) :: chars t2
        | _ => [n]
        end
      else
        match t with
        | c1 :: c2 :: c3 :: t3 =>
            N.lor (N.shiftl (N.land n 7) 18)
              (N.lor (N.shiftl (cont c1) 12)
                 (N.lor (N.shiftl (cont c2) 6) (cont c3))) :: chars t3
        | _ => [n]
        end
  end.

(** [Iterator::position]. *)
Fixpoint position {A} (p : A -> bool) (l : list A) : option nat :=
  match l with
  | [] => None
  | x :: t => if p x then Some 0 else option_map S (position p t)
  end.

(** ** Buffers ([buffer.rs]) *)

Record Cursor := mkCursor { line_ : nat; column : nat }.

(** The fields of [Buffer] the commands read or write: [keymap],
    [filename] and [highlight] are not touched by the claims' code. *)
Record Buffer := mkBuffer { lines : list line; cursor : Cursor }.

Definition Buffer_new : Buffer := mkBuffer [[]] (mkCursor 0 0).

Definition lines_count (b : Buffer) : nat := length (lines b).

Definition set_cursor (b : Buffer) (c : Cursor) : Buffer :=
  mkBuffer (lines b) c.

Definition set_lines (b : Buffer) (ls : list line) : Buffer :=
  mkBuffer ls (cursor b).

Definition get_line_unchecked (b : Buffer) (nth : nat) : option line :=
  vec_index (lines b) nth.

(** [Buffer::set]. *)
Definition Buffer_set (b : Buffer) (s : list byte) : Buffer :=
  mkBuffer (split_nl s) (mkCursor 0 0).

Definition from_string (s : list byte) : Buffer := Buffer_set Buffer_new s.

Definition to_string (b : Buffer) : list byte := join_nl (lines b).

(** [Buffer::truncate]: the cursor is left as it is. *)
Definition truncate (b : Buffer) : Buffer := mkBuffer [[]] (cursor b).

(** [Buffer::backward_delete]. *)
Definition backward_delete (b : Buffer) : option Buffer :=
  let c := cursor b in
  if 0 <? column c then
    let col := column c - 1 in
    let? l := vec_index (lines b) (line_ c) in
    let? l' := string_remove_char l col in
    let? ls := vec_set (lines b) (line_ c) l' in
    Some (mkBuffer ls (mkCursor (line_ c) col))
  else if 0 <? line_ c then
    let? '(removed, ls) := vec_remove (lines b) (line_ c) in
    let? prev := vec_index ls (line_ c - 1) in
    let previous_line_original_length := length prev in
    let? ls' := vec_set ls (line_ c - 1) (prev ++ removed) in
    Some (mkBuffer ls' (mkCursor (line_ c - 1) previous_line_original_length))
  else Some b.

(** Modelled from the spec: [Buffer::remove_char_at], called by
    [delete_backward_char] but absent from [buffer.rs]; the spec gives it as
    "byte-indexed single-character removal" at [(line, col)]. Out of range
    it panics, like the [Vec] and [String] indexing it stands for. *)
Definition remove_char_at (b : Buffer) (ln col : nat) : option Buffer :=
  let? l := vec_index (lines b) ln in
  let? l' := string_remove l col in
  let? ls := vec_set (lines b) ln l' in
  Some (set_lines b ls).

(** The buffer [delete_backward_char] leaves in the focused window: the
    steps of [backward_delete], with [remove_char_at]'s byte removal where
    [backward_delete] calls [String::remove]. *)
Definition delete_backward_char_effect (b : Buffer) : option Buffer :=
  let c := cursor b in
  if 0 <? column c then
    let col := column c - 1 in
    let? l := vec_index (lines b) (line_ c) in
    let? l' := string_remove l col in
    let? ls := vec_set (lines b) (line_ c) l' in
    Some (mkBuffer ls (mkCursor (line_ c) col))
  else if 0 <? line_ c then
    let? '(removed, ls) := vec_remove (lines b) (line_ c) in
    let? prev := vec_index ls (line_ c - 1) in
    let previous_line_original_length := length prev in
    let? ls' := vec_set ls (line_ c - 1) (prev ++ removed) in
    Some (mkBuffer ls' (mkCursor (line_ c - 1) previous_line_original_length))
  else Some b.

(** [get_line_indentation]: [line.chars().position(..)], an index counted
    in characters, and [unwrap_or(0)] on an all-white-space line. *)
Definition get_line_indentation (l : line) : nat :=
  match position (fun ch => negb (is_whitespace ch)) (chars l) with
  | Some i => i
  | None => 0
  end.

(** ** Windows, layout and the editor state *)

(** [BufferRef(u64)] has a private field and is only built by
    [BufferRef::main_window()] (0) and [BufferRef::minibuffer_window()] (1),
    the two handles [resolve_ref] resolves. *)
Inductive BufferRef := BR_main | BR_minibuffer.

Record Window := mkWindow {
  scroll_line : nat;
  show_lines : bool;
  show_modeline : bool;
  buffer_ref : BufferRef
}.

Definition set_scroll_line (w : Window) (n : nat) : Window :=
  mkWindow n (show_lines w) (show_modeline w) (buffer_ref w).

Record GoalColumn := mkGoalColumn { gc_column : option nat; to_preserve : bool }.

(** [Context] with [BufferList] and [WindowList] flattened; the event-loop
    state and the resize flag are not read by the commands modelled here. *)
Record Context := mkContext {
  main_buffer : Buffer;
  minibuffer : Buffer;
  main_window : Window;
  minibuffer_window : Window;
  minibuffer_focused : bool;
  goal_column : GoalColumn
}.

(** The terminal as the layout reads it. *)
Record Term := mkTerm { rows : nat; columns : nat }.

Record Region := mkRegion { top : nat; height : nat }.

(** [WindowList::get_current_window]. *)
Definition get_current_window (ctx : Context) : Window :=
  if minibuffer_focused ctx then minibuffer_window ctx else main_window ctx.

Definition set_current_window (ctx : Context) (w : Window) : Context :=
  if minibuffer_focused ctx
  then mkContext (main_buffer ctx) (minibuffer ctx) (main_window ctx) w
         (minibuffer_focused ctx) (goal_column ctx)
  else mkContext (main_buffer ctx) (minibuffer ctx) w (minibuffer_window ctx)
         (minibuffer_focused ctx) (goal_column ctx).

(** [BufferList::resolve_ref_as_mut]. *)
Definition resolve_ref (ctx : Context) (r : BufferRef) : Buffer :=
  match r with BR_main => main_buffer ctx | BR_minibuffer => minibuffer ctx end.

Definition set_buffer (ctx : Context) (r : BufferRef) (b : Buffer) : Context :=
  match r with
  | BR_main => mkContext b (minibuffer ctx) (main_window ctx)
                 (minibuffer_window ctx) (minibuffer_focused ctx) (goal_column ctx)
  | BR_minibuffer => mkContext (main_buffer ctx) b (main_window ctx)
                 (minibuffer_window ctx) (minibuffer_focused ctx) (goal_column ctx)
  end.

Definition set_goal_column (ctx : Context) (g : GoalColumn) : Context :=
  mkContext (main_buffer ctx) (minibuffer ctx) (main_window ctx)
    (minibuffer_window ctx) (minibuffer_focused ctx) g.

(** The buffer shown in the focused window. *)
Definition current_buffer (ctx : Context) : Buffer :=
  resolve_ref ctx (buffer_ref (get_current_window ctx)).

(** [layout::get_layout] and [layout::get_current_window_region]; the
    subtraction [rows - minibuffer_height] cannot underflow since
    [minibuffer_height <= rows / 3]. *)
Definition minibuffer_height (term : Term) (ctx : Context) : nat :=
  Nat.min (lines_count (minibuffer ctx)) (rows term / 3).

Definition get_current_window_region (term : Term) (ctx : Context) : Region :=
  let mh := minibuffer_height term ctx in
  if minibuffer_focused ctx then mkRegion (rows term - mh) mh
  else mkRegion 0 (rows term - mh).

(** [Window::window_lines]. *)
Definition window_lines (w : Window) (region : Region) : option nat :=
  if show_modeline w then usub (height region) 1 else Some (height region).

(** [Window::last_visible_line]. *)
Definition last_visible_line (w : Window) (region : Region) : option nat :=
  let? wl := window_lines w region in usub (scroll_line w + wl) 1.

(** The progress field of [Window::render_modeline]. *)
Inductive Progress := Top | Bot | Percent (n : nat).

Definition buffer_progress (w : Window) (region : Region) (b : Buffer)
  : option Progress :=
  if scroll_line w =? 0 then Some Top
  else
    let? lv := last_visible_line w region in
    if lines_count b <=? lv then Some Bot
    else if lines_count b =? 0 then None
    else Some (Percent (100 * (line_ (cursor b) + 1) / lines_count b)).

(** ** The command monad

    A command runs on the editor state and may panic. *)

Definition M (A : Type) : Type := Context -> option (A * Context).

Definition ret {A} (a : A) : M A := fun ctx => Some (a, ctx).

Definition bind {A B} (m : M A) (f : A -> M B) : M B :=
  fun ctx => match m ctx with Some (a, ctx') => f a ctx' | None => None end.

Notation "x <- m ;; k" := (bind m (fun x => k))
  (at level 61, m at next level, right associativity).
Notation "' p <- m ;; k" := (bind m (fun y => match y with p => k end))
  (at level 61, p pattern, m at next level, right associativity).
Notation "m ;; k" := (bind m (fun _ => k))
  (at level 61, right associativity).

Definition gets {A} (f : Context -> A) : M A := fun ctx => Some (f ctx, ctx).
Definition modify (f : Context -> Context) : M unit :=
  fun ctx => Some (tt, f ctx).
Definition lift {A} (o : option A) : M A :=
  fun ctx => match o with Some a => Some (a, ctx) | None => None end.

Definition get_buffer (r : BufferRef) : M Buffer := gets (fun ctx => resolve_ref ctx r).
Definition put_buffer (r : BufferRef) (b : Buffer) : M unit :=
  modify (fun ctx => set_buffer ctx r b).

(** [Result<(), ()>] of a command. *)
Inductive Res := Ok | Err.

(** [window::message]: replaces the minibuffer's contents. *)
Definition message (s : list byte) : M unit :=
  modify (fun ctx => set_buffer ctx BR_minibuffer (Buffer_set (minibuffer ctx) s)).

(** The buffer of the focused window, as every command resolves it. *)
Definition cur_ref : M BufferRef :=
  gets (fun ctx => buffer_ref (get_current_window ctx)).

(** ** Commands ([commands.rs]) *)

Definition CONTEXT_LINES : nat := 2.

(** [get_or_set_gaol_column]. *)
Definition get_or_set_gaol_column (c : Cursor) : M nat :=
  g <- gets goal_column ;;
  let col := match gc_column g with Some x => x | None => column c end in
  modify (fun ctx => set_goal_column ctx (mkGoalColumn (Some col) true)) ;;
  ret col.

Definition next_line (_term : Term) : M Res :=
  r <- cur_ref ;;
  b <- get_buffer r ;;
  last <- lift (usub (lines_count b) 1) ;;
  if line_ (cursor b) <? last then
    goal <- get_or_set_gaol_column (cursor b) ;;
    let ln := line_ (cursor b) + 1 in
    l <- lift (get_line_unchecked b ln) ;;
    put_buffer r (set_cursor b (mkCursor ln (Nat.min (length l) goal))) ;;
    ret Ok
  else
    message (lit "End of buffer") ;;
    ret Err.

Definition previous_line (_term : Term) : M Res :=
  r <- cur_ref ;;
  b <- get_buffer r ;;
  if 0 <? line_ (cursor b) then
    goal <- get_or_set_gaol_column (cursor b) ;;
    let ln := line_ (cursor b) - 1 in
    l <- lift (get_line_unchecked b ln) ;;
    put_buffer r (set_cursor b (mkCursor ln (Nat.min (length l) goal))) ;;
    ret Ok
  else
    message (lit "Beginning of buffer") ;;
    ret Err.

Definition move_end_of_line (_term : Term) : M Res :=
  r <- cur_ref ;;
  b <- get_buffer r ;;
  l <- lift (get_line_unchecked b (line_ (cursor b))) ;;
  put_buffer r (set_cursor b (mkCursor (line_ (cursor b)) (length l))) ;;
  ret Ok.

(** [forward_char]: the column is reset before [next_line] runs. *)
Definition forward_char (term : Term) : M Res :=
  r <- cur_ref ;;
  b <- get_buffer r ;;
  l <- lift (get_line_unchecked b (line_ (cursor b))) ;;
  if column (cursor b) <? length l then
    put_buffer r (set_cursor b (mkCursor (line_ (cursor b)) (column (cursor b) + 1))) ;;
    ret Ok
  else
    put_buffer r (set_cursor b (mkCursor (line_ (cursor b)) 0)) ;;
    res <- next_line term ;;
    match res with Err => ret Err | Ok => ret Ok end.

Definition backward_char (term : Term) : M Res :=
  r <- cur_ref ;;
  b <- get_buffer r ;;
  if 0 <? column (cursor b) then
    put_buffer r (set_cursor b (mkCursor (line_ (cursor b)) (column (cursor b) - 1))) ;;
    ret Ok
  else
    res <- previous_line term ;;
    match res with
    | Err => ret Err
    | Ok => res' <- move_end_of_line term ;;
            match res' with Err => ret Err | Ok => ret Ok end
    end.

Definition delete_backward_char (_term : Term) : M Res :=
  r <- cur_ref ;;
  b <- get_buffer r ;;
  let c := cursor b in
  if 0 <? column c then
    let b1 := set_cursor b (mkCursor (line_ c) (column c - 1)) in
    b2 <- lift (remove_char_at b1 (line_ c) (column c - 1)) ;;
    put_buffer r b2 ;;
    ret Ok
  else if 0 <? line_ c then
    '(removed, ls) <- lift (vec_remove (lines b) (line_ c)) ;;
    prev <- lift (vec_index ls (line_ c - 1)) ;;
    let previous_line_original_length := length prev in
    ls' <- lift (vec_set ls (line_ c - 1) (prev ++ removed)) ;;
    put_buffer r (mkBuffer ls' (mkCursor (line_ c - 1) previous_line_original_length)) ;;
    ret Ok
  else ret Ok.

Definition indent_line (_term : Term) : M Res :=
  r <- cur_ref ;;
  b <- get_buffer r ;;
  l <- lift (get_line_unchecked b (line_ (cursor b))) ;;
  let indent := get_line_indentation l in
  (if column (cursor b) <? indent then
     put_buffer r (set_cursor b (mkCursor (line_ (cursor b)) indent))
   else ret tt) ;;
  ret Ok.

Definition next_screen (term : Term) : M Res :=
  region <- gets (get_current_window_region term) ;;
  window <- gets get_current_window ;;
  wl <- lift (window_lines window region) ;;
  wl1 <- lift (usub wl 1) ;;
  offset <- lift (usub wl1 CONTEXT_LINES) ;;
  b <- get_buffer (buffer_ref window) ;;
  let target := scroll_line window + offset in
  if target <? lines_count b then
    modify (fun ctx => set_current_window ctx (set_scroll_line window target)) ;;
    put_buffer (buffer_ref window) (set_cursor b (mkCursor target (column (cursor b)))) ;;
    ret Ok
  else
    message (lit "End of buffer") ;;
    ret Err.

Definition previous_screen (term : Term) : M Res :=
  region <- gets (get_current_window_region term) ;;
  window <- gets get_current_window ;;
  if scroll_line window =? 0 then
    message (lit "Beginning of buffer") ;;
    ret Err
  else
    wl <- lift (window_lines window region) ;;
    wl1 <- lift (usub wl 1) ;;
    offset <- lift (usub wl1 CONTEXT_LINES) ;;
    b <- get_buffer (buffer_ref window) ;;
    put_buffer (buffer_ref window)
      (set_cursor b (mkCursor (scroll_line window + CONTEXT_LINES) (column (cursor b)))) ;;
    let scroll := match usub (scroll_line window) offset with
                  | Some s => s | None => 0 end in
    modify (fun ctx => set_current_window ctx (set_scroll_line window scroll)) ;;
    ret Ok.

(** ** One iteration of the event loop ([event_loop.rs]) *)

(** [window::adjust_scroll] on the focused window. *)
Definition adjust_scroll (term : Term) : M unit :=
  region <- gets (get_current_window_region term) ;;
  window <- gets get_current_window ;;
  b <- get_buffer (buffer_ref window) ;;
  let ln := line_ (cursor b) in
  let w1 := if ln <? scroll_line window then set_scroll_line window ln else window in
  last <- lift (last_visible_line w1 region) ;;
  w2 <- (if last <? ln then
           wl <- lift (window_lines w1 region) ;;
           s <- lift (usub ln wl) ;;
           ret (set_scroll_line w1 (s + 1))
         else ret w1) ;;
  modify (fun ctx => set_current_window ctx w2).

(** The body of [event_loop]'s loop for an iteration whose key binding
    resolves to the command [cmd]: the goal column's [to_preserve] flag is
    reset, [process_user_input] truncates the minibuffer unless it is
    focused and runs the command (its result is dropped), the goal column
    is cleared unless the command preserved it, and the scroll is
    adjusted. The result returned is the command's. *)
Definition begin_iteration (ctx : Context) : Context :=
  let ctx1 := set_goal_column ctx (mkGoalColumn (gc_column (goal_column ctx)) false) in
  if minibuffer_focused ctx1 then ctx1
  else set_buffer ctx1 BR_minibuffer (truncate (minibuffer ctx1)).

Definition end_command (ctx : Context) : Context :=
  if to_preserve (goal_column ctx) then ctx
  else set_goal_column ctx (mkGoalColumn None false).

Definition iteration (term : Term) (cmd : Term -> M Res) : M Res :=
  modify begin_iteration ;;
  res <- cmd term ;;
  modify end_command ;;
  adjust_scroll term ;;
  ret res.

(** The two vertical motions. *)
Inductive VMotion := VNext | VPrev.

Definition motion_cmd (m : VMotion) : Term -> M Res :=
  match m with VNext => next_line | VPrev => previous_line end.

(** A run of iterations, one command each, with the results in order. *)
Fixpoint iterations (term : Term) (cmds : list (Term -> M Res)) : M (list Res) :=
  match cmds with
  | [] => ret []
  | c :: cs => r <- iteration term c ;; rs <- iterations term cs ;; ret (r :: rs)
  end.

(** ** Keys ([key.rs]) *)

(** [Key { meta, code: u32 }]. *)
Record Key := mkKey { meta : bool; code : N }.

Definition from_code (c : N) : Key := mkKey false c.

(** [Key::meta]. *)
Definition key_meta (k : Key) : Key := mkKey true (code k).

(** [Key::ctrl]. *)
Definition ctrl (k : Key) : Key := mkKey (meta k) (N.land 31 (code k)).

Definition is_ctrl (k : Key) : bool := N.eqb (code k) (N.land 31 (code k)).

Fixpoint is_prefix (p s : list byte) : bool :=
  match p, s with
  | [], _ => true
  | a :: p', b :: s' => Byte.eqb a b && is_prefix p' s'
  | _ :: _, [] => false
  end.

(** [starts_with]: strip [prefix] from [str]. *)
Definition starts_with (prefix str : list byte) : option (list byte) :=
  if is_prefix prefix str then Some (skipn (length prefix) str) else None.

Fixpoint bytes_eqb (a b : list byte) : bool :=
  match a, b with
  | [], [] => true
  | x :: a', y :: b' => Byte.eqb x y && bytes_eqb a' b'
  | _, _ => false
  end.

(** [Key::parse_unmodified]: a [str] of byte length 1 is one ASCII
    character, whose scalar is that byte. *)
Definition parse_unmodified (key : list byte) : option Key :=
  match key with
  | [c] => Some (from_code (N.of_nat (Byte.to_nat c)))
  | _ =>
      if bytes_eqb key (lit "DEL") then Some (from_code 127)
      else if bytes_eqb key (lit "RET") then Some (from_code 13)
      else if bytes_eqb key (lit "TAB") then Some (from_code 9)
      else None
  end.

(** [Key::parse]. *)
Definition parse (key : list byte) : option Key :=
  match starts_with (lit "C-M-") key with
  | Some suffix => option_map (fun k => key_meta (ctrl k)) (parse_unmodified suffix)
  | None =>
      match starts_with (lit "C-") key with
      | Some suffix => option_map ctrl (parse_unmodified suffix)
      | None =>
          match starts_with (lit "M-") key with
          | Some suffix => option_map key_meta (parse_unmodified suffix)
          | None => parse_unmodified key
          end
      end
  end.

Definition u32_max : N := 4294967295.

(** [char::from_u32]. *)
Definition char_from_u32 (c : N) : option N :=
  if (c <? 1114112)%N && negb ((55296 <=? c)%N && (c <=? 57343)%N) then Some c
  else None.

Definition byte_of_N (n : N) : byte :=
  match Byte.of_N n with Some b => b | None => x00 end.

(** The UTF-8 encoding of a scalar value, as [write!] emits it. *)
Definition utf8_encode (c : N) : list byte :=
  if (c <? 128)%N then [byte_of_N c]
  else if (c <? 2048)%N then
    [byte_of_N (N.lor 192 (N.shiftr c 6)); byte_of_N (N.lor 128 (N.land c 63))]
  else if (c <? 65536)%N then
    [byte_of_N (N.lor 224 (N.shiftr c 12));
     byte_of_N (N.lor 128 (N.land (N.shiftr c 6) 63));
     byte_of_N (N.lor 128 (N.land c 63))]
  else
    [byte_of_N (N.lor 240 (N.shiftr c 18));
     byte_of_N (N.lor 128 (N.land (N.shiftr c 12) 63));
     byte_of_N (N.lor 128 (N.land (N.shiftr c 6) 63));
     byte_of_N (N.lor 128 (N.land c 63))].

(** [impl fmt::Display for Key]: [self.code + ('a' as u32 & !0x1f)] in
    [u32] (an overflow panics) and [char::from_u32(..).unwrap()]. *)
Definition fmt (k : Key) : option (list byte) :=
  let c := (code k + N.land 97 (N.lxor 31 u32_max))%N in
  if (u32_max <? c)%N then None
  else
    let? ch := char_from_u32 c in
    Some ((if is_ctrl k then lit "C-" else []) ++
          (if meta k then lit "M-" else []) ++ utf8_encode ch).

(** [char::is_control]: the general category Cc, U+0000..U+001F and
    U+007F..U+009F. *)
Definition is_control (c : N) : bool :=
  (c <? 32)%N || ((127 <=? c)%N && (c <=? 159)%N).

(** [Key::as_char]. *)
Definition as_char (k : Key) : option N :=
  if meta k then None
  else match char_from_u32 (code k) with
       | Some ch => if is_control ch then None else Some ch
       | None => None
       end.

(** [event_loop::is_self_insert]. *)
Definition is_self_insert (keys : list Key) : option N :=
  match keys with
  | [k] => as_char k
  | _ => None
  end.

(** The cursor invariant of [Buffer]: at least one line, the cursor on a
    line and within it (the column may equal the line length). *)
Definition cursor_valid (b : Buffer) : bool :=
  (1 <=? lines_count b) &&
  match nth_error (lines b) (line_ (cursor b)) with
  | Some l => column (cursor b) <=? length l
  | None => false
  end.

(** [Context::new]: the main window shows a modeline, the minibuffer
    window does not; nothing is focused but the main window. *)
Definition Context_new (b : Buffer) : Context :=
  mkContext b Buffer_new (mkWindow 0 false true BR_main)
    (mkWindow 0 false false BR_minibuffer) false (mkGoalColumn None false).

(** The goal the next vertical motion uses: the stored goal column, or
    the current column when none is set. *)
Definition eff_goal (ctx : Context) : nat :=
  match gc_column (goal_column ctx) with
  | Some g => g
  | None => column (cursor (current_buffer ctx))
  end.

(** The focused window's buffer is not the one [begin_iteration] truncates. *)
Definition current_buffer_kept (ctx : Context) : Prop :=
  minibuffer_focused ctx = true \/ buffer_ref (get_current_window ctx) = BR_main.

(** ** The remaining commands of [commands.rs] *)

(** [String::insert(idx, ch)]: the UTF-8 bytes of [ch] are inserted at the
    byte index [idx], which must be a character boundary. *)
Definition string_insert (s : line) (idx : nat) (ch : N) : option line :=
  if is_char_boundary s idx
  then Some (firstn idx s ++ utf8_encode ch ++ skipn idx s) else None.

(** [Vec::insert(i, x)]: panics if [i > len]. *)
Definition vec_insert {A} (v : list A) (i : nat) (x : A) : option (list A) :=
  if i <=? length v then Some (firstn i v ++ x :: skipn i v) else None.

Definition move_beginning_of_line (_term : Term) : M Res :=
  r <- cur_ref ;;
  b <- get_buffer r ;;
  l <- lift (get_line_unchecked b (line_ (cursor b))) ;;
  let indentation := get_line_indentation l in
  put_buffer r (set_cursor b (mkCursor (line_ (cursor b))
    (if column (cursor b) <=? indentation then 0 else indentation))) ;;
  ret Ok.

(** [insert_char(context, ch)], [ch] a Unicode scalar value. *)
Definition insert_char (ch : N) : M unit :=
  r <- cur_ref ;;
  b <- get_buffer r ;;
  let idx := column (cursor b) in
  l <- lift (get_line_unchecked b (line_ (cursor b))) ;;
  l' <- lift (string_insert l idx ch) ;;
  ls <- lift (vec_set (lines b) (line_ (cursor b)) l') ;;
  put_buffer r (mkBuffer ls (mkCursor (line_ (cursor b)) (idx + 1))).

(** [Key::format_seq]: the keys' [Display] forms joined by spaces. *)
Fixpoint format_seq (ks : list Key) : option (list byte) :=
  match ks with
  | [] => Some []
  | [k] => fmt k
  | k :: ks' => let? s := fmt k in let? t := format_seq ks' in Some (s ++ x20 :: t)
  end.

(** What [read::read_key_binding] answers: a bound command, or the keys
    read when they are bound to none. *)
Inductive Binding := Bound (h : Term -> M Res) | Unbound (keys : list Key).

(** The [match cmd] of [process_user_input] (the minibuffer truncation
    before it is [begin_iteration]'s): a bound command is run and its
    result dropped; unbound keys self-insert, or else the minibuffer says
    "<keys> is undefined" and the keys are returned as the error. *)
Definition process_binding (term : Term) (cmd : Binding) : M (option (list Key)) :=
  match cmd with
  | Bound handler => _ <- handler term ;; ret None
  | Unbound keys =>
      match is_self_insert keys with
      | Some ch => insert_char ch ;; ret None
      | None =>
          s <- lift (format_seq keys) ;;
          modify (fun ctx => set_buffer ctx BR_minibuffer
                               (Buffer_set (minibuffer ctx) (s ++ lit " is undefined"))) ;;
          ret (Some keys)
      end
  end.

Definition delete_char (term : Term) : M Res :=
  res <- forward_char term ;;
  match res with
  | Err => ret Err
  | Ok => res' <- delete_backward_char term ;;
          match res' with Err => ret Err | Ok => ret Ok end
  end.

(** [kill_line]; [line.drain(column..)] panics unless [column] is a
    character boundary. *)
Definition kill_line (term : Term) : M Res :=
  r <- cur_ref ;;
  b <- get_buffer r ;;
  let ln := line_ (cursor b) in
  let col := column (cursor b) in
  l <- lift (get_line_unchecked b ln) ;;
  if col =? length l then
    last <- lift (usub (lines_count b) 1) ;;
    if ln <? last then
      res <- delete_char term ;;
      match res with Err => ret Err | Ok => ret Ok end
    else ret Ok
  else
    l' <- lift (if is_char_boundary l col then Some (firstn col l) else None) ;;
    ls <- lift (vec_set (lines b) ln l') ;;
    put_buffer r (set_lines b ls) ;;
    ret Ok.

(** [newline]; [line.split_off(column)] panics unless [column] is a
    character boundary. *)
Definition newline (_term : Term) : M Res :=
  r <- cur_ref ;;
  b <- get_buffer r ;;
  let ln := line_ (cursor b) in
  let col := column (cursor b) in
  l <- lift (get_line_unchecked b ln) ;;
  nl <- lift (if is_char_boundary l col then Some (skipn col l) else None) ;;
  ls <- lift (vec_set (lines b) ln (firstn col l)) ;;
  ls' <- lift (vec_insert ls (ln + 1) nl) ;;
  put_buffer r (mkBuffer ls' (mkCursor (ln + 1) 0)) ;;
  ret Ok.

Definition beginning_of_buffer (_term : Term) : M Res :=
  r <- cur_ref ;;
  b <- get_buffer r ;;
  put_buffer r (set_cursor b (mkCursor 0 0)) ;;
  ret Ok.

Definition end_of_buffer (_term : Term) : M Res :=
  r <- cur_ref ;;
  b <- get_buffer r ;;
  linenum <- lift (usub (lines_count b) 1) ;;
  l <- lift (get_line_unchecked b linenum) ;;
  put_buffer r (set_cursor b (mkCursor linenum (length l))) ;;
  ret Ok.

(** ** Layout and rendering ([layout.rs], [window.rs]) *)

Record Layout := mkLayout { main_window_region : Region; minibuffer_region : Region }.

(** [layout::get_layout]. *)
Definition get_layout (term : Term) (ctx : Context) : Layout :=
  let mh := minibuffer_height term ctx in
  mkLayout (mkRegion 0 (rows term - mh)) (mkRegion (rows term - mh) mh).

(** The length of [format!("{}", n)]. *)
Fixpoint dec_len_fuel (fuel n : nat) : nat :=
  match fuel with
  | 0 => 1
  | S f => if n <? 10 then 1 else S (dec_len_fuel f (n / 10))
  end.

Definition dec_len (n : nat) : nat := dec_len_fuel n n.

(** [Window::get_pad_width]. *)
Definition get_pad_width (w : Window) (region : Region) : nat :=
  if show_lines w then dec_len (scroll_line w + height region) + 1 else 0.

(** [Window::render_cursor]: the 1-based terminal position the cursor is
    drawn at, [None] when the cursor line is above the window. *)
Definition render_cursor (w : Window) (ctx : Context) (region : Region)
  : option (nat * nat) :=
  let b := resolve_ref ctx (buffer_ref w) in
  match usub (line_ (cursor b)) (scroll_line w) with
  | Some row => Some (top region + row + 1, column (cursor b) + get_pad_width w region + 1)
  | None => None
  end.

(** * Properties *)

(** ** Splitting and joining lines *)

Lemma split_nl_cons_ne c t :
  Byte.eqb c x0a = false ->
  split_nl (c :: t) = match split_nl t with
                      | w :: ws => (c :: w) :: ws
                      | [] => [[c]]
                      end.
Proof. intros H. simpl. now rewrite H. Qed.

Lemma split_nl_not_nil s : exists w ws, split_nl s = w :: ws.
Proof.
  induction s as [|c t [w [ws IH]]]; simpl.
  - eauto.
  - destruct (Byte.eqb c x0a); [eauto|]. rewrite IH. eauto.
Qed.

Lemma join_nl_cons_cons c w ws : join_nl ((c :: w) :: ws) = c :: join_nl (w :: ws).
Proof. destruct ws; reflexivity. Qed.

Lemma join_split_nl s : join_nl (split_nl s) = s.
Proof.
  induction s as [|c t IH]; [reflexivity|].
  destruct (split_nl_not_nil t) as [w [ws Hs]].
  simpl. destruct (Byte.eqb c x0a) eqn:Hc.
  - apply Byte.byte_dec_bl in Hc. subst c. rewrite Hs in IH |- *.
    change (join_nl ([] :: w :: ws)) with ([] ++ x0a :: join_nl (w :: ws)).
    now rewrite IH.
  - rewrite Hs, join_nl_cons_cons. now rewrite <- IH, Hs.
Qed.

Lemma eqb_nl_false c : ~ c = x0a -> Byte.eqb c x0a = false.
Proof.
  intros H. destruct (Byte.eqb c x0a) eqn:E; [|reflexivity].
  exfalso. apply H. now apply Byte.byte_dec_bl.
Qed.

Lemma split_nl_app_no_nl l s :
  ~ In x0a l ->
  split_nl (l ++ s) = match split_nl s with
                      | w :: ws => (l ++ w) :: ws
                      | [] => [l]
                      end.
Proof.
  induction l as [|c l IH]; intros Hl.
  - destruct (split_nl_not_nil s) as [w [ws Hs]]. now rewrite Hs.
  - simpl in Hl. rewrite <- app_comm_cons.
    rewrite split_nl_cons_ne by (apply eqb_nl_false; intuition).
    rewrite IH by intuition.
    destruct (split_nl_not_nil s) as [w [ws Hs]]. now rewrite Hs.
Qed.

Lemma split_join_nl ls :
  ls <> [] -> Forall (fun l => ~ In x0a l) ls -> split_nl (join_nl ls) = ls.
Proof.
  induction ls as [|l ls IH]; intros Hne Hf; [congruence|].
  inversion Hf as [|? ? Hl Hls]; subst.
  destruct ls as [|l' ls'].
  - simpl. rewrite <- (app_nil_r l). rewrite split_nl_app_no_nl by exact Hl.
    reflexivity.
  - change (join_nl (l :: l' :: ls')) with (l ++ x0a :: join_nl (l' :: ls')).
    rewrite split_nl_app_no_nl by exact Hl.
    change (split_nl (x0a :: join_nl (l' :: ls')))
      with ([] :: split_nl (join_nl (l' :: ls'))).
    rewrite IH by (discriminate || exact Hls). now rewrite app_nil_r.
Qed.

Lemma split_nl_trailing_nl s :
  exists w ws, split_nl (s ++ [x0a]) = w :: ws ++ [[]].
Proof.
  induction s as [|c t [w [ws IH]]].
  - exists [], []. reflexivity.
  - rewrite <- app_comm_cons. simpl. rewrite IH.
    destruct (Byte.eqb c x0a).
    + exists [], (w :: ws). reflexivity.
    + exists (c :: w), ws. reflexivity.
Qed.

Example from_string_trailing_nl :
  lines (from_string (lit "ab" ++ [x0a])) = [lit "ab"; []].
Proof. reflexivity. Qed.

(** ** Positional list operations *)

Lemma nth_error_middle' {A} (pre post : list A) x :
  nth_error (pre ++ x :: post) (length pre) = Some x.
Proof. induction pre; simpl; auto. Qed.

Lemma vec_remove_middle {A} (pre post : list A) x :
  vec_remove (pre ++ x :: post) (length pre) = Some (x, pre ++ post).
Proof. induction pre as [|y pre IH]; simpl; [reflexivity|]. now rewrite IH. Qed.

Lemma vec_set_middle {A} (pre post : list A) x y :
  vec_set (pre ++ x :: post) (length pre) y = Some (pre ++ y :: post).
Proof. induction pre as [|z pre IH]; simpl; [reflexivity|]. now rewrite IH. Qed.

Lemma string_remove_middle (a z : line) x :
  string_remove (a ++ x :: z) (length a) = Some (a ++ z).
Proof. unfold string_remove. now rewrite vec_remove_middle. Qed.

Lemma string_remove_char_middle_ascii (a z : line) x :
  Byte.to_nat x < 128 ->
  string_remove_char (a ++ x :: z) (length a) = Some (a ++ z).
Proof.
  intros Hx. unfold string_remove_char, is_char_boundary.
  rewrite nth_error_middle'.
  rewrite (proj2 (Nat.ltb_lt _ _) Hx), orb_true_r.
  unfold utf8_width. rewrite (proj2 (Nat.ltb_lt _ _) Hx).
  rewrite firstn_app, Nat.sub_diag, firstn_all, app_nil_r.
  rewrite skipn_app, skipn_all2 by lia.
  replace (length a + 1 - length a) with 1 by lia. reflexivity.
Qed.

Lemma string_remove_char_ascii (l : line) i x :
  nth_error l i = Some x -> Byte.to_nat x < 128 ->
  string_remove_char l i = string_remove l i.
Proof.
  intros Hn Hx. destruct (nth_error_split l i Hn) as (a & z & -> & <-).
  rewrite string_remove_char_middle_ascii, string_remove_middle by exact Hx.
  reflexivity.
Qed.

Lemma backward_delete_effect_ascii b :
  (column (cursor b) = 0 \/
   exists l x, nth_error (lines b) (line_ (cursor b)) = Some l /\
               nth_error l (column (cursor b) - 1) = Some x /\ Byte.to_nat x < 128) ->
  backward_delete b = delete_backward_char_effect b.
Proof.
  intros H. unfold backward_delete, delete_backward_char_effect.
  destruct (Nat.ltb_spec 0 (column (cursor b))) as [Hc|Hc]; [|reflexivity].
  destruct H as [H|(l & x & Hl & Hx & Ha)]; [lia|].
  unfold vec_index. rewrite Hl. cbn [obind].
  rewrite (string_remove_char_ascii l _ x Hx Ha). reflexivity.
Qed.

Lemma set_buffer_resolve ctx r : set_buffer ctx r (resolve_ref ctx r) = ctx.
Proof. destruct ctx, r; reflexivity. Qed.

Lemma set_buffer_set_buffer ctx r b b' :
  set_buffer (set_buffer ctx r b) r b' = set_buffer ctx r b'.
Proof. destruct ctx, r; reflexivity. Qed.


Lemma resolve_set_buffer ctx r b : resolve_ref (set_buffer ctx r b) r = b.
Proof. destruct ctx, r; reflexivity. Qed.

Ltac run_cmd :=
  unfold cur_ref, get_buffer, put_buffer, message, bind, gets, lift, modify,
    ret, obind, set_lines, set_cursor in *.

Lemma delete_backward_char_effect_eq term ctx :
  delete_backward_char term ctx =
  match delete_backward_char_effect (current_buffer ctx) with
  | Some b' => Some (Ok, set_buffer ctx (buffer_ref (get_current_window ctx)) b')
  | None => None
  end.
Proof.
  unfold delete_backward_char, delete_backward_char_effect, remove_char_at, current_buffer.
  run_cmd.
  destruct (resolve_ref ctx (buffer_ref (get_current_window ctx)))
    as [ls [ln col]] eqn:Hb; cbn.
  destruct col as [|col]; cbn.
  - destruct ln as [|ln]; cbn.
    + now rewrite <- Hb, set_buffer_resolve.
    + destruct (vec_remove ls (S ln)) as [[removed ls0]|]; [|reflexivity].
      destruct (nth_error ls0 (ln - 0)); [|reflexivity].
      destruct (vec_set _ _ _); reflexivity.
  - destruct (nth_error ls ln); [|reflexivity].
    destruct (string_remove _ _); [|reflexivity].
    destruct (vec_set _ _ _); reflexivity.
Qed.

Lemma delete_backward_char_effect_join pre prev cur post :
  delete_backward_char_effect (mkBuffer (pre ++ prev :: cur :: post) (mkCursor (S (length pre)) 0))
  = Some (mkBuffer (pre ++ (prev ++ cur) :: post) (mkCursor (length pre) (length prev))).
Proof.
  unfold delete_backward_char_effect, obind; cbn -[vec_remove].
  replace (pre ++ prev :: cur :: post) with ((pre ++ [prev]) ++ cur :: post)
    by now rewrite <- app_assoc.
  replace (S (length pre)) with (length (pre ++ [prev]))
    by (rewrite length_app; simpl; lia).
  rewrite vec_remove_middle.
  rewrite <- app_assoc. simpl. rewrite Nat.sub_0_r.
  rewrite nth_error_middle', vec_set_middle. reflexivity.
Qed.

Lemma delete_backward_char_effect_char pre post a x z :
  delete_backward_char_effect (mkBuffer (pre ++ (a ++ x :: z) :: post)
                            (mkCursor (length pre) (S (length a))))
  = Some (mkBuffer (pre ++ (a ++ z) :: post) (mkCursor (length pre) (length a))).
Proof.
  unfold delete_backward_char_effect, obind, vec_index; cbn -[vec_set string_remove].
  rewrite nth_error_middle', Nat.sub_0_r, string_remove_middle, vec_set_middle.
  reflexivity.
Qed.

(** C6: [delete_backward_char] on the focused buffer: at column 0 of a line
    [n > 0] it removes line [n], appends it to line [n - 1] and puts the
    cursor at the former end of line [n - 1]; at a column [c > 0] (within
    the line) it removes the byte at [c - 1] and moves to column [c - 1];
    at [(0, 0)] it changes nothing and returns [Ok]. *)
Theorem C6_delete_backward_char (term : Term) (ctx : Context) :
  let r := buffer_ref (get_current_window ctx) in
  let b := resolve_ref ctx r in
  (forall pre prev cur post,
     lines b = pre ++ prev :: cur :: post ->
     cursor b = mkCursor (S (length pre)) 0 ->
     delete_backward_char term ctx =
     Some (Ok, set_buffer ctx r (mkBuffer (pre ++ (prev ++ cur) :: post)
                                          (mkCursor (length pre) (length prev))))) /\
  (forall pre post a x z,
     lines b = pre ++ (a ++ x :: z) :: post ->
     cursor b = mkCursor (length pre) (S (length a)) ->
     delete_backward_char term ctx =
     Some (Ok, set_buffer ctx r (mkBuffer (pre ++ (a ++ z) :: post)
                                          (mkCursor (length pre) (length a))))) /\
  (cursor b = mkCursor 0 0 -> delete_backward_char term ctx = Some (Ok, ctx)).
Proof.
  intros r b. rewrite delete_backward_char_effect_eq.
  unfold current_buffer. fold r. fold b.
  destruct b as [ls c] eqn:Hb. simpl.
  split; [|split].
  - intros pre prev cur post -> ->. now rewrite delete_backward_char_effect_join.
  - intros pre post a x z -> ->. now rewrite delete_backward_char_effect_char.
  - intros ->. cbn. subst b. now rewrite <- Hb, set_buffer_resolve.
Qed.

(** C10 (amended): [delete_backward_char] acts on the focused buffer
    exactly as [Buffer::backward_delete] acts on that buffer (it returns
    [Ok] and changes nothing else), with the same panics, whenever the
    column is 0 or the byte before the cursor is ASCII, so that
    [String::remove] in [backward_delete] removes that one byte, as
    [remove_char_at] does. *)
Theorem C10_delete_backward_char_is_backward_delete term ctx :
  let b := current_buffer ctx in
  (column (cursor b) = 0 \/
   exists l x, nth_error (lines b) (line_ (cursor b)) = Some l /\
               nth_error l (column (cursor b) - 1) = Some x /\ Byte.to_nat x < 128) ->
  delete_backward_char term ctx =
  match backward_delete b with
  | Some b' => Some (Ok, set_buffer ctx (buffer_ref (get_current_window ctx)) b')
  | None => None
  end.
Proof.
  cbv zeta. intros H.
  rewrite (backward_delete_effect_ascii _ H).
  apply delete_backward_char_effect_eq.
Qed.

Lemma C10_delete_backward_char_is_backward_delete_witness :
  let ctx := Context_new (mkBuffer [lit "abc"] (mkCursor 0 2)) in
  delete_backward_char (mkTerm 24 80) ctx =
  Some (Ok, set_buffer ctx BR_main (mkBuffer [lit "ac"] (mkCursor 0 1))).
Proof.
  intros ctx.
  rewrite (C10_delete_backward_char_is_backward_delete (mkTerm 24 80) ctx
             ltac:(right; exists (lit "abc"), x62; split; [reflexivity|split; [reflexivity|apply Nat.ltb_lt; reflexivity]])).
  reflexivity.
Defined.

(** C10 as stated fails on the line "\u{e9}a" (bytes C3 A9 61) with the
    cursor at (0, 2), just after the two-byte character: the cursor is
    valid, [Buffer::backward_delete] panics ([String::remove] at byte 1, not
    a character boundary), while [delete_backward_char] removes the single
    byte A9 and returns [Ok] with the line C3 61 and the cursor at (0, 1). *)
Lemma C10_delete_backward_char_counterexample :
  let ctx := Context_new (mkBuffer [[xc3; xa9; x61]] (mkCursor 0 2)) in
  cursor_valid (current_buffer ctx) = true /\
  backward_delete (current_buffer ctx) = None /\
  delete_backward_char (mkTerm 24 80) ctx =
  Some (Ok, set_buffer ctx BR_main (mkBuffer [[xc3; x61]] (mkCursor 0 1))).
Proof. vm_compute. repeat split. Qed.

(** C2: [Buffer::from_string(s).to_string()] is [s] for every string [s];
    a buffer with at least one line and no newline inside its lines has the
    same lines once serialised and read back; a string ending in a newline
    reads as lines whose last one is empty (and, by the first part, writes
    back byte for byte). *)
Theorem C2_from_string_to_string_roundtrip :
  (forall s, to_string (from_string s) = s) /\
  (forall b, lines b <> [] -> Forall (fun l => ~ In x0a l) (lines b) ->
             lines (from_string (to_string b)) = lines b) /\
  (forall s, exists w ws, lines (from_string (s ++ [x0a])) = w :: ws ++ [[]]).
Proof.
  split; [|split].
  - intros s. apply join_split_nl.
  - intros b Hne Hnl. apply split_join_nl; assumption.
  - intros s. apply split_nl_trailing_nl.
Qed.

Lemma C2_from_string_to_string_roundtrip_witness :
  lines (from_string (to_string (mkBuffer [lit "ab"; []; lit "c"] (mkCursor 2 1))))
  = [lit "ab"; []; lit "c"].
Proof.
  apply (proj1 (proj2 C2_from_string_to_string_roundtrip)).
  - discriminate.
  - repeat constructor; simpl; intuition discriminate.
Defined.

Lemma C6_delete_backward_char_witness :
  delete_backward_char (mkTerm 24 80)
    (Context_new (mkBuffer [lit "abc"; lit "de"] (mkCursor 1 0)))
  = Some (Ok, set_buffer (Context_new (mkBuffer [lit "abc"; lit "de"] (mkCursor 1 0)))
                BR_main (mkBuffer ([] ++ (lit "abc" ++ lit "de") :: [])
                                  (mkCursor 0 3))).
Proof.
  apply (proj1 (C6_delete_backward_char (mkTerm 24 80)
                  (Context_new (mkBuffer [lit "abc"; lit "de"] (mkCursor 1 0))))
           [] (lit "abc") (lit "de") []); reflexivity.
Defined.

(** The first two end-to-end scenarios of the spec. *)
Example delete_backward_scenarios :
  option_map (fun p => (to_string (main_buffer (snd p)), cursor (main_buffer (snd p))))
    (delete_backward_char (mkTerm 24 80)
       (Context_new (mkBuffer [lit "abcde"] (mkCursor 0 3))))
  = Some (lit "abde", mkCursor 0 2) /\
  option_map (fun p => (to_string (main_buffer (snd p)), cursor (main_buffer (snd p))))
    (delete_backward_char (mkTerm 24 80)
       (Context_new (mkBuffer [lit "abc"; lit "de"] (mkCursor 1 0))))
  = Some (lit "abcde", mkCursor 0 3).
Proof. split; reflexivity. Qed.

(** ** Keys *)

Lemma fmt_parse_ctrl_nat (m : bool) (n : nat) :
  n < 32 -> obind (fmt (mkKey m (N.of_nat n))) parse = Some (mkKey m (N.of_nat n)).
Proof.
  intros H.
  do 32 (destruct n as [|n]; [destruct m; vm_compute; reflexivity|]).
  lia.
Qed.

(** The control keys (codes below 32, with or without meta) do print in a
    form [Key::parse] reads back. *)
Lemma fmt_parse_ctrl (k : Key) :
  (code k < 32)%N -> obind (fmt k) parse = Some k.
Proof.
  destruct k as [m c]. simpl. intros H.
  rewrite <- (N2Nat.id c). apply fmt_parse_ctrl_nat. lia.
Qed.

(** C4, at the key [a] (code 97, no modifier): [Display] prints the
    scalar [97 + 0x60 = 0xC1], the two-byte string "Á", which
    [Key::parse] rejects; likewise DEL (127) prints "ß". *)
Theorem C4_fmt_parse_printable_key :
  fmt (mkKey false 97) = Some [xc3; x81] /\
  obind (fmt (mkKey false 97)) parse = None /\
  fmt (from_code 127) = Some [xc3; x9f] /\
  obind (fmt (from_code 127)) parse = None /\
  obind (fmt (key_meta (from_code 102))) parse = None.
Proof. vm_compute. repeat split. Qed.

(** ** Character motion *)

(** C5, at the end of the last line of ["ab"] (cursor [(0, 2)]):
    [forward_char] returns [Err] and writes "End of buffer", but it has
    already moved the cursor to column 0. At the end of a line that is not
    the last (["ab"; "cde"], cursor [(0, 2)]) it reaches [(1, 0)] as
    [next_line] followed by column 0 would, but leaves the goal column at
    0, where [next_line] from [(0, 2)] sets it to 2. *)
Theorem C5_forward_char_at_end_of_line :
  let t := mkTerm 24 80 in
  let ctx1 := Context_new (mkBuffer [lit "ab"] (mkCursor 0 2)) in
  let ctx2 := Context_new (mkBuffer [lit "ab"; lit "cde"] (mkCursor 0 2)) in
  option_map (fun p => (fst p, cursor (main_buffer (snd p)), lines (minibuffer (snd p))))
    (forward_char t ctx1) = Some (Err, mkCursor 0 0, [lit "End of buffer"]) /\
  option_map (fun p => (fst p, cursor (main_buffer (snd p)), goal_column (snd p)))
    (forward_char t ctx2) = Some (Ok, mkCursor 1 0, mkGoalColumn (Some 0) true) /\
  option_map (fun p => (fst p, goal_column (snd p))) (next_line t ctx2)
    = Some (Ok, mkGoalColumn (Some 2) true).
Proof. vm_compute. repeat split. Qed.

(** ** Indentation *)

Lemma position_first {A} (p : A -> bool) ws c rest :
  forallb (fun x => negb (p x)) ws = true -> p c = true ->
  position p (ws ++ c :: rest) = Some (length ws).
Proof.
  induction ws as [|x ws IH]; simpl; intros Hws Hc.
  - now rewrite Hc.
  - apply andb_prop in Hws as [Hx Hws]. apply negb_true_iff in Hx.
    rewrite Hx, IH by assumption. reflexivity.
Qed.


Lemma forallb_ext' {A} (f g : A -> bool) l :
  (forall x, f x = g x) -> forallb f l = forallb g l.
Proof. intros H. induction l; simpl; [reflexivity|]. now rewrite H, IHl. Qed.

Lemma get_line_indentation_first l ws c rest :
  chars l = ws ++ c :: rest ->
  forallb is_whitespace ws = true -> is_whitespace c = false ->
  get_line_indentation l = length ws.
Proof.
  intros Hl Hws Hc. unfold get_line_indentation. rewrite Hl.
  rewrite position_first; [reflexivity| |now rewrite Hc].
  erewrite forallb_ext'; [exact Hws|]. intros x. now rewrite negb_involutive.
Qed.


Lemma indent_line_spec term ctx l :
  let r := buffer_ref (get_current_window ctx) in
  let b := resolve_ref ctx r in
  get_line_unchecked b (line_ (cursor b)) = Some l ->
  indent_line term ctx =
  Some (Ok, set_buffer ctx r
              (set_cursor b (mkCursor (line_ (cursor b))
                               (Nat.max (column (cursor b)) (get_line_indentation l))))).
Proof.
  intros r b H. unfold indent_line. run_cmd. fold r. fold b.
  rewrite H. destruct (column (cursor b) <? get_line_indentation l) eqn:E.
  - apply Nat.ltb_lt in E. now rewrite Nat.max_r by lia.
  - apply Nat.ltb_ge in E. rewrite Nat.max_l by lia.
    destruct b as [ls [ln col]] eqn:Hb. simpl.
    unfold b in Hb. now rewrite <- Hb, set_buffer_resolve.
Qed.




(** ** The modeline *)

(** C9: six one-letter lines, a 7-row terminal (a window of 5 lines under
    the modeline) and five [next_line] iterations from [(0, 0)]: the window
    scrolls to line 1, its last visible line is 5, the last buffer line,
    yet the progress field is "100%" rather than "Bot", because
    [render_modeline] compares the last visible line with [lines_count]
    instead of [lines_count - 1]. *)
Theorem C9_modeline_progress_at_end :
  let t := mkTerm 7 80 in
  let ctx0 := Context_new (mkBuffer (map (fun c => [c]) [x61; x62; x63; x64; x65; x66])
                                    (mkCursor 0 0)) in
  match iterations t (repeat next_line 5) ctx0 with
  | Some (rs, ctx) =>
      rs = repeat Ok 5 /\
      scroll_line (main_window ctx) = 1 /\
      cursor (main_buffer ctx) = mkCursor 5 0 /\
      last_visible_line (main_window ctx) (get_current_window_region t ctx) = Some 5 /\
      lines_count (main_buffer ctx) - 1 = 5 /\
      buffer_progress (main_window ctx) (get_current_window_region t ctx) (main_buffer ctx)
        = Some (Percent 100)
  | None => False
  end.
Proof. vm_compute. repeat split. Qed.

(** ** Screen motion *)

Lemma usub_le a b : b <= a -> usub a b = Some (a - b).
Proof. intros H. unfold usub. now rewrite (proj2 (Nat.leb_le b a) H). Qed.

Lemma usub_gt a b : a < b -> usub a b = None.
Proof. intros H. unfold usub. now rewrite (proj2 (Nat.leb_gt b a) H). Qed.

(** C7 (amended): with the main window focused (showing the main buffer,
    as [Context::new] sets it up) and at least 3 window lines, let
    [target = scroll_line + (window_lines - 1 - CONTEXT_LINES)]. If
    [target >= lines_count], [next_screen] returns [Err] and only the
    minibuffer changes, to "End of buffer"; otherwise it returns [Ok] with
    [scroll_line] and [cursor.line] both set to [target]. *)
Theorem C7_next_screen (term : Term) (ctx : Context) (wl : nat) :
  minibuffer_focused ctx = false ->
  buffer_ref (main_window ctx) = BR_main ->
  window_lines (main_window ctx) (get_current_window_region term ctx) = Some wl ->
  3 <= wl ->
  let w := main_window ctx in
  let b := main_buffer ctx in
  let target := scroll_line w + (wl - 1 - CONTEXT_LINES) in
  (lines_count b <= target ->
   next_screen term ctx =
   Some (Err, set_buffer ctx BR_minibuffer
                (Buffer_set (minibuffer ctx) (lit "End of buffer")))) /\
  (target < lines_count b ->
   next_screen term ctx =
   Some (Ok, set_buffer (set_current_window ctx (set_scroll_line w target)) BR_main
               (set_cursor b (mkCursor target (column (cursor b)))))).
Proof.
  intros Hf Hr Hwl H3 w b target.
  unfold next_screen. run_cmd. unfold get_current_window. rewrite Hf.
  rewrite Hwl.
  rewrite (usub_le wl 1), (usub_le (wl - 1) CONTEXT_LINES)
    by (unfold CONTEXT_LINES; lia).
  rewrite Hr. change (resolve_ref ctx BR_main) with b. fold w. fold target.
  split; intros H.
  - rewrite (proj2 (Nat.ltb_ge _ _) H). reflexivity.
  - rewrite (proj2 (Nat.ltb_lt _ _) H). reflexivity.
Qed.

Lemma C7_next_screen_witness :
  next_screen (mkTerm 7 80) (Context_new (mkBuffer [lit "a"; lit "b"; lit "c"] (mkCursor 0 0)))
  = Some (Ok, set_buffer
                (set_current_window
                   (Context_new (mkBuffer [lit "a"; lit "b"; lit "c"] (mkCursor 0 0)))
                   (set_scroll_line (mkWindow 0 false true BR_main) 2))
                BR_main (set_cursor (mkBuffer [lit "a"; lit "b"; lit "c"] (mkCursor 0 0))
                                    (mkCursor 2 0))).
Proof.
  refine (proj2 (C7_next_screen (mkTerm 7 80)
                   (Context_new (mkBuffer [lit "a"; lit "b"; lit "c"] (mkCursor 0 0))) 5
                   eq_refl eq_refl eq_refl _) _); [lia | cbv; lia].
Defined.

(** C7 as stated fails twice. On a 3-row terminal the main window has one
    line and [window_lines - 1 - CONTEXT_LINES] underflows: [next_screen]
    panics. With the minibuffer focused (a 3-line minibuffer scrolled to
    line 3), the "End of buffer" message is written into the very buffer
    [next_screen] works on. *)
Lemma C7_next_screen_counterexample :
  next_screen (mkTerm 3 80) (Context_new (mkBuffer [lit "a"] (mkCursor 0 0))) = None /\
  match next_screen (mkTerm 24 80)
          (mkContext (mkBuffer [lit "x"] (mkCursor 0 0))
             (mkBuffer [lit "a"; lit "b"; lit "c"] (mkCursor 0 0))
             (mkWindow 0 false true BR_main) (mkWindow 3 false false BR_minibuffer)
             true (mkGoalColumn None false)) with
  | Some (Err, ctx') =>
      scroll_line (get_current_window ctx') = 3 /\
      current_buffer ctx' = mkBuffer [lit "End of buffer"] (mkCursor 0 0)
  | _ => False
  end.
Proof. vm_compute. repeat split. Qed.

(** ** The cursor invariant *)

(** C1: in a 7-row terminal (a main window of 5 lines, so the page offset
    is 2), on the valid buffer ["a"; "b"; "c"] at [(0, 0)], the iterations
    [next_screen] (Ok, scroll 2, cursor line 2) then [previous_screen]
    (Ok, cursor line [2 + CONTEXT_LINES = 4]) leave the cursor on line 4 of
    a 3-line buffer. On ["abc"; "x"; "y"] at [(0, 3)], [next_screen] moves
    the cursor to line 2 and keeps column 3, past the end of ["y"]. *)
Theorem C1_screen_motion_breaks_cursor_invariant :
  let t := mkTerm 7 80 in
  let ctx0 := Context_new (mkBuffer [lit "a"; lit "b"; lit "c"] (mkCursor 0 0)) in
  let ctx1 := Context_new (mkBuffer [lit "abc"; lit "x"; lit "y"] (mkCursor 0 3)) in
  cursor_valid (main_buffer ctx0) = true /\
  match iterations t [next_screen; previous_screen] ctx0 with
  | Some (rs, ctx) =>
      rs = [Ok; Ok] /\ cursor (main_buffer ctx) = mkCursor 4 0 /\
      lines_count (main_buffer ctx) = 3 /\ cursor_valid (main_buffer ctx) = false
  | None => False
  end /\
  cursor_valid (main_buffer ctx1) = true /\
  match iterations t [next_screen] ctx1 with
  | Some (rs, ctx) =>
      rs = [Ok] /\ cursor (main_buffer ctx) = mkCursor 2 3 /\
      cursor_valid (main_buffer ctx) = false
  | None => False
  end.
Proof. vm_compute. repeat split. Qed.

(** ** Vertical motion and the goal column *)

(** The column a vertical motion aims at: the goal column if set, the
    cursor column otherwise. *)
Lemma iteration_inv term cmd ctx r ctx' :
  iteration term cmd ctx = Some (r, ctx') ->
  exists c1 u, cmd term (begin_iteration ctx) = Some (r, c1) /\
               adjust_scroll term (end_command c1) = Some (u, ctx').
Proof.
  unfold iteration, bind, modify, ret.
  destruct (cmd term (begin_iteration ctx)) as [[r1 c1]|]; [|discriminate].
  destruct (adjust_scroll term (end_command c1)) as [[u c2]|] eqn:E; [|discriminate].
  intros H. inversion H; subst. eauto.
Qed.

Lemma bind_inv {A B} (m : M A) (f : A -> M B) ctx r :
  bind m f ctx = Some r ->
  exists a ctx1, m ctx = Some (a, ctx1) /\ f a ctx1 = Some r.
Proof.
  unfold bind. destruct (m ctx) as [[a ctx1]|]; [|discriminate].
  intros H. exists a, ctx1. auto.
Qed.

Lemma lift_inv {A} (o : option A) ctx a ctx' :
  lift o ctx = Some (a, ctx') -> o = Some a /\ ctx' = ctx.
Proof.
  unfold lift. destruct o; intros H; inversion H; auto.
Qed.

Lemma adjust_scroll_inv term ctx u ctx' :
  adjust_scroll term ctx = Some (u, ctx') ->
  exists w, ctx' = set_current_window ctx w /\
            buffer_ref w = buffer_ref (get_current_window ctx).
Proof.
  unfold adjust_scroll at 1. intros H.
  apply bind_inv in H as (region & c1 & H1 & H). cbv [gets] in H1.
  inversion H1; subst c1; clear H1.
  apply bind_inv in H as (window & c1 & H1 & H). cbv [gets] in H1.
  inversion H1; subst c1 window; clear H1.
  apply bind_inv in H as (b & c1 & H1 & H). cbv [get_buffer gets] in H1.
  inversion H1; subst c1 b; clear H1.
  apply bind_inv in H as (last & c1 & H1 & H).
  apply lift_inv in H1 as [_ ->].
  apply bind_inv in H as (w2 & c1 & H1 & H).
  cbv [modify] in H. inversion H; subst; clear H.
  set (w0 := get_current_window ctx) in *.
  set (ln := line_ (cursor (resolve_ref ctx (buffer_ref w0)))) in *.
  assert (Hw1 : buffer_ref (if ln <? scroll_line w0 then set_scroll_line w0 ln
                            else w0) = buffer_ref w0)
    by (destruct (ln <? scroll_line w0); reflexivity).
  destruct (last <? ln).
  - apply bind_inv in H1 as (wl & c2 & H2 & H1).
    apply lift_inv in H2 as [_ ->].
    apply bind_inv in H1 as (sv & c2 & H2 & H1).
    apply lift_inv in H2 as [_ ->].
    cbv [ret] in H1. inversion H1; subst; clear H1.
    exists (set_scroll_line (if ln <? scroll_line w0 then set_scroll_line w0 ln
                             else w0) (sv + 1)).
    split; [reflexivity|]. exact Hw1.
  - cbv [ret] in H1. inversion H1; subst; clear H1.
    eexists; split; [reflexivity|]. exact Hw1.
Qed.

Lemma set_current_window_focus ctx w :
  minibuffer_focused (set_current_window ctx w) = minibuffer_focused ctx.
Proof. unfold set_current_window. now destruct (minibuffer_focused ctx). Qed.

Lemma set_current_window_goal ctx w :
  goal_column (set_current_window ctx w) = goal_column ctx.
Proof. unfold set_current_window. now destruct (minibuffer_focused ctx). Qed.

Lemma set_current_window_get ctx w :
  get_current_window (set_current_window ctx w) = w.
Proof. unfold set_current_window, get_current_window. now destruct (minibuffer_focused ctx). Qed.

Lemma set_current_window_resolve ctx w r :
  resolve_ref (set_current_window ctx w) r = resolve_ref ctx r.
Proof. unfold set_current_window. destruct (minibuffer_focused ctx), r; reflexivity. Qed.

Lemma set_current_window_main_ref ctx w :
  buffer_ref w = buffer_ref (get_current_window ctx) ->
  buffer_ref (main_window (set_current_window ctx w)) = buffer_ref (main_window ctx).
Proof.
  unfold set_current_window, get_current_window.
  destruct (minibuffer_focused ctx); simpl; auto.
Qed.

Ltac mstep H :=
  let a := fresh "a" in let c := fresh "c" in let Hm := fresh "Hm" in
  apply bind_inv in H as (a & c & Hm & H);
  first [ apply lift_inv in Hm as [Hm ->]
        | cbv [cur_ref get_buffer put_buffer message gets modify ret] in Hm;
          inversion Hm; subst; clear Hm ].

Lemma next_line_inv term ctx res ctx' :
  next_line term ctx = Some (res, ctx') ->
  let r := buffer_ref (get_current_window ctx) in
  let b := resolve_ref ctx r in
  match res with
  | Ok => exists c l,
      ctx' = set_buffer (set_goal_column ctx (mkGoalColumn (Some (eff_goal ctx)) true))
               r (set_cursor b c) /\
      get_line_unchecked b (line_ c) = Some l /\
      column c = Nat.min (length l) (eff_goal ctx)
  | Err => goal_column ctx' = goal_column ctx
  end.
Proof.
  unfold next_line at 1. intros H. cbv zeta.
  mstep H. mstep H. mstep H.
  destruct (line_ (cursor _) <? _).
  - unfold get_or_set_gaol_column in H.
    apply bind_inv in H as (g & c1 & Hg & H).
    mstep Hg. mstep Hg. cbv [ret] in Hg. inversion Hg; subst; clear Hg.
    mstep H. mstep H. cbv [ret] in H. inversion H; subst; clear H.
    eexists _, _. split; [reflexivity|]. split; [eassumption|].
    reflexivity.
  - mstep H. cbv [ret] in H. inversion H; subst; clear H.
    reflexivity.
Qed.

Lemma previous_line_inv term ctx res ctx' :
  previous_line term ctx = Some (res, ctx') ->
  let r := buffer_ref (get_current_window ctx) in
  let b := resolve_ref ctx r in
  match res with
  | Ok => exists c l,
      ctx' = set_buffer (set_goal_column ctx (mkGoalColumn (Some (eff_goal ctx)) true))
               r (set_cursor b c) /\
      get_line_unchecked b (line_ c) = Some l /\
      column c = Nat.min (length l) (eff_goal ctx)
  | Err => goal_column ctx' = goal_column ctx
  end.
Proof.
  unfold previous_line at 1. intros H. cbv zeta.
  mstep H. mstep H.
  destruct (0 <? line_ (cursor _)).
  - unfold get_or_set_gaol_column in H.
    apply bind_inv in H as (g & c1 & Hg & H).
    mstep Hg. mstep Hg. cbv [ret] in Hg. inversion Hg; subst; clear Hg.
    mstep H. mstep H. cbv [ret] in H. inversion H; subst; clear H.
    eexists _, _. split; [reflexivity|]. split; [eassumption|].
    reflexivity.
  - mstep H. cbv [ret] in H. inversion H; subst; clear H.
    reflexivity.
Qed.

Lemma motion_inv m term ctx res ctx' :
  motion_cmd m term ctx = Some (res, ctx') ->
  let r := buffer_ref (get_current_window ctx) in
  let b := resolve_ref ctx r in
  match res with
  | Ok => exists c l,
      ctx' = set_buffer (set_goal_column ctx (mkGoalColumn (Some (eff_goal ctx)) true))
               r (set_cursor b c) /\
      get_line_unchecked b (line_ c) = Some l /\
      column c = Nat.min (length l) (eff_goal ctx)
  | Err => goal_column ctx' = goal_column ctx
  end.
Proof.
  destruct m; [apply next_line_inv | apply previous_line_inv].
Qed.

Lemma begin_iteration_inv ctx :
  current_buffer_kept ctx ->
  get_current_window (begin_iteration ctx) = get_current_window ctx /\
  minibuffer_focused (begin_iteration ctx) = minibuffer_focused ctx /\
  current_buffer (begin_iteration ctx) = current_buffer ctx /\
  goal_column (begin_iteration ctx) = mkGoalColumn (gc_column (goal_column ctx)) false.
Proof.
  unfold current_buffer_kept, begin_iteration, current_buffer, get_current_window.
  destruct ctx as [mb mn mw nw f g]; simpl.
  destruct f; simpl; [auto|]. intros [H|H]; [discriminate|].
  rewrite H. auto.
Qed.

Lemma eff_goal_begin ctx :
  current_buffer_kept ctx -> eff_goal (begin_iteration ctx) = eff_goal ctx.
Proof.
  intros H. destruct (begin_iteration_inv ctx H) as (_ & _ & Hb & Hg).
  unfold eff_goal. rewrite Hb, Hg. reflexivity.
Qed.

Lemma set_buffer_goal_fields x g r b :
  get_current_window (set_buffer (set_goal_column x g) r b) = get_current_window x /\
  minibuffer_focused (set_buffer (set_goal_column x g) r b) = minibuffer_focused x /\
  goal_column (set_buffer (set_goal_column x g) r b) = g.
Proof. destruct r; repeat split; reflexivity. Qed.

Lemma adjust_scroll_fields term c u ctx' :
  adjust_scroll term c = Some (u, ctx') ->
  minibuffer_focused ctx' = minibuffer_focused c /\
  goal_column ctx' = goal_column c /\
  buffer_ref (get_current_window ctx') = buffer_ref (get_current_window c) /\
  current_buffer ctx' = current_buffer c.
Proof.
  intros H. apply adjust_scroll_inv in H as (w & -> & Hw).
  unfold current_buffer.
  rewrite set_current_window_focus, set_current_window_goal,
    set_current_window_get, set_current_window_resolve, Hw.
  auto.
Qed.

Lemma vertical_iteration_ok term m ctx ctx' :
  current_buffer_kept ctx ->
  iteration term (motion_cmd m) ctx = Some (Ok, ctx') ->
  current_buffer_kept ctx' /\
  gc_column (goal_column ctx') = Some (eff_goal ctx) /\
  exists l, nth_error (lines (current_buffer ctx')) (line_ (cursor (current_buffer ctx'))) = Some l /\
            column (cursor (current_buffer ctx')) = Nat.min (length l) (eff_goal ctx).
Proof.
  intros Hk H. apply iteration_inv in H as (c1 & u & Hc & Ha).
  destruct (begin_iteration_inv ctx Hk) as (Hw0 & Hf0 & Hb0 & _).
  pose proof (eff_goal_begin ctx Hk) as He.
  apply motion_inv in Hc. cbv zeta in Hc.
  destruct Hc as (c & l & -> & Hl & Hcol).
  destruct (set_buffer_goal_fields (begin_iteration ctx)
              (mkGoalColumn (Some (eff_goal (begin_iteration ctx))) true)
              (buffer_ref (get_current_window (begin_iteration ctx)))
              (set_cursor (resolve_ref (begin_iteration ctx)
                 (buffer_ref (get_current_window (begin_iteration ctx)))) c))
    as (Hw1 & Hf1 & Hg1).
  unfold end_command in Ha. rewrite Hg1 in Ha. simpl in Ha.
  apply adjust_scroll_fields in Ha as (Hf2 & Hg2 & Hr2 & Hb2).
  split; [|split].
  - unfold current_buffer_kept in *. rewrite Hf2, Hf1, Hf0, Hr2, Hw1, Hw0. exact Hk.
  - rewrite Hg2, Hg1, He. reflexivity.
  - rewrite Hb2. unfold current_buffer. rewrite Hw1, resolve_set_buffer.
    cbn [cursor lines set_cursor]. exists l. split; [exact Hl|]. rewrite Hcol, He. reflexivity.
Qed.

Lemma vertical_iteration_err term m ctx ctx' :
  iteration term (motion_cmd m) ctx = Some (Err, ctx') ->
  gc_column (goal_column ctx') = None.
Proof.
  intros H. apply iteration_inv in H as (c1 & u & Hc & Ha).
  apply motion_inv in Hc. cbv zeta in Hc.
  apply adjust_scroll_fields in Ha as (_ & Hg2 & _).
  rewrite Hg2. unfold end_command. rewrite Hc.
  unfold begin_iteration.
  destruct (minibuffer_focused _); reflexivity.
Qed.

Lemma iteration_clears_goal term cmd ctx res c1 ctx' :
  cmd term (begin_iteration ctx) = Some (res, c1) ->
  to_preserve (goal_column c1) = false ->
  iteration term cmd ctx = Some (res, ctx') ->
  gc_column (goal_column ctx') = None.
Proof.
  intros Hc Hp H. apply iteration_inv in H as (c2 & u & Hc2 & Ha).
  rewrite Hc in Hc2. inversion Hc2; subst c2; clear Hc2.
  apply adjust_scroll_fields in Ha as (_ & Hg2 & _).
  rewrite Hg2. unfold end_command. rewrite Hp. reflexivity.
Qed.

Lemma eff_goal_some ctx g :
  gc_column (goal_column ctx) = Some g -> eff_goal ctx = g.
Proof. unfold eff_goal. intros ->. reflexivity. Qed.

Lemma vertical_run_ok term ms : forall ctx rs ctx',
  current_buffer_kept ctx -> ms <> [] ->
  iterations term (map motion_cmd ms) ctx = Some (rs, ctx') ->
  Forall (eq Ok) rs ->
  gc_column (goal_column ctx') = Some (eff_goal ctx) /\
  exists l, nth_error (lines (current_buffer ctx')) (line_ (cursor (current_buffer ctx'))) = Some l /\
            column (cursor (current_buffer ctx')) = Nat.min (length l) (eff_goal ctx).
Proof.
  induction ms as [|m ms IH]; intros ctx rs ctx' Hk Hne H Hrs; [congruence|].
  simpl in H. apply bind_inv in H as (r & ctx1 & H1 & H).
  apply bind_inv in H as (rs' & ctx2 & H2 & H).
  cbv [ret] in H. inversion H; subst; clear H.
  inversion Hrs as [|r0 rs0 Hr Hrs']; subst.
  destruct (vertical_iteration_ok term m ctx ctx1 Hk H1) as (Hk1 & Hg1 & Hl1).
  destruct ms as [|m' ms'].
  - cbv [iterations ret] in H2. inversion H2; subst. auto.
  - rewrite <- (eff_goal_some ctx1 (eff_goal ctx) Hg1).
    apply (IH ctx1 rs' ctx'); auto. discriminate.
Qed.

(** C3 (corrected). Start from a state whose goal column is unset and
    where the focused window's buffer is not the one the loop truncates.
    Run a non-empty sequence of event-loop iterations, each executing
    [next_line] or [previous_line], and suppose every one returns [Ok].
    Then the final column is [min c0 (length of the cursor's line)], where
    [c0] is the starting column, and the goal column is [Some c0].
    A vertical motion that fails leaves the goal column cleared.
    More generally, the loop clears the goal column after any iteration
    whose command left [to_preserve] false. *)
Theorem C3_vertical_motion_goal_column term ms ctx rs ctx' :
  current_buffer_kept ctx ->
  gc_column (goal_column ctx) = None ->
  ms <> [] ->
  iterations term (map motion_cmd ms) ctx = Some (rs, ctx') ->
  Forall (eq Ok) rs ->
  (exists l, nth_error (lines (current_buffer ctx')) (line_ (cursor (current_buffer ctx'))) = Some l /\
             column (cursor (current_buffer ctx')) =
             Nat.min (column (cursor (current_buffer ctx))) (length l)) /\
  gc_column (goal_column ctx') = Some (column (cursor (current_buffer ctx))) /\
  (forall m c c', iteration term (motion_cmd m) c = Some (Err, c') ->
                  gc_column (goal_column c') = None) /\
  (forall cmd c res c1 c', cmd term (begin_iteration c) = Some (res, c1) ->
                           to_preserve (goal_column c1) = false ->
                           iteration term cmd c = Some (res, c') ->
                           gc_column (goal_column c') = None).
Proof.
  intros Hk Hg Hne H Hrs.
  assert (He : eff_goal ctx = column (cursor (current_buffer ctx)))
    by (unfold eff_goal; rewrite Hg; reflexivity).
  destruct (vertical_run_ok term ms ctx rs ctx' Hk Hne H Hrs) as (Hg' & l & Hl & Hc).
  split; [|split; [|split]].
  - exists l. split; [exact Hl|]. rewrite Hc, He. apply Nat.min_comm.
  - rewrite Hg', He. reflexivity.
  - apply vertical_iteration_err.
  - apply iteration_clears_goal.
Qed.

Lemma C3_vertical_motion_goal_column_witness :
  let term := mkTerm 24 80 in
  let ctx := Context_new (mkBuffer [lit "abc"; lit "x"; lit "abcd"] (mkCursor 0 3)) in
  let ctx' := set_goal_column
                (Context_new (mkBuffer [lit "abc"; lit "x"; lit "abcd"] (mkCursor 2 3)))
                (mkGoalColumn (Some 3) true) in
  iterations term (map motion_cmd [VNext; VNext]) ctx = Some ([Ok; Ok], ctx') /\
  (exists l, nth_error (lines (current_buffer ctx')) (line_ (cursor (current_buffer ctx'))) = Some l /\
             column (cursor (current_buffer ctx')) =
             Nat.min (column (cursor (current_buffer ctx))) (length l)).
Proof.
  intros term ctx ctx'.
  assert (H : iterations term (map motion_cmd [VNext; VNext]) ctx = Some ([Ok; Ok], ctx'))
    by (vm_compute; reflexivity).
  split; [exact H|].
  apply (C3_vertical_motion_goal_column term [VNext; VNext] ctx [Ok; Ok] ctx');
    [right; reflexivity | reflexivity | discriminate | exact H | repeat constructor].
Defined.

(** C3, the claim as stated fails. From ["abc"; "x"] at (0,3), the
    iterations [next_line], [next_line], [previous_line] return Ok, Err, Ok.
    The failed motion clears the goal, so the cursor ends at column 1 of
    "abc", not at [min 3 3]. From ["abc"; "de"] at (1,0), [backward_char]
    moves to the end of "abc" but leaves the goal at 0. A following
    [next_line] then gives column 0, not [min 3 2]. *)
Lemma C3_vertical_motion_counterexample :
  let term := mkTerm 24 80 in
  let ctx1 := Context_new (mkBuffer [lit "abc"; lit "x"] (mkCursor 0 3)) in
  let ctx2 := Context_new (mkBuffer [lit "abc"; lit "de"] (mkCursor 1 0)) in
  match iterations term (map motion_cmd [VNext; VNext; VPrev]) ctx1 with
  | Some (rs, c') =>
      rs = [Ok; Err; Ok] /\
      nth_error (lines (current_buffer c')) (line_ (cursor (current_buffer c'))) = Some (lit "abc") /\
      column (cursor (current_buffer c')) = 1 /\
      column (cursor (current_buffer c')) <> Nat.min 3 (length (lit "abc"))
  | None => False
  end /\
  match iteration term backward_char ctx2 with
  | Some (Ok, c1) =>
      column (cursor (current_buffer c1)) = 3 /\
      match iteration term next_line c1 with
      | Some (Ok, c') =>
          nth_error (lines (current_buffer c')) (line_ (cursor (current_buffer c'))) = Some (lit "de") /\
          column (cursor (current_buffer c')) = 0 /\
          column (cursor (current_buffer c')) <> Nat.min 3 (length (lit "de"))
      | _ => False
      end
  | _ => False
  end.
Proof.
  vm_compute. repeat split; discriminate.
Qed.

(** ** Cursor validity under the motion commands *)

Lemma cursor_valid_inv b :
  cursor_valid b = true ->
  exists l, nth_error (lines b) (line_ (cursor b)) = Some l /\
            column (cursor b) <= length l /\ 1 <= lines_count b.
Proof.
  unfold cursor_valid. rewrite andb_true_iff, Nat.leb_le.
  intros [H1 H2]. destruct (nth_error (lines b) (line_ (cursor b))) as [l|]; [|discriminate].
  apply Nat.leb_le in H2. eauto.
Qed.

Lemma cursor_valid_intro (ls : list line) c (l : line) :
  nth_error ls (line_ c) = Some l -> column c <= length l ->
  cursor_valid (mkBuffer ls c) = true.
Proof.
  intros H1 H2. unfold cursor_valid, lines_count. cbn [lines cursor]. rewrite H1.
  apply andb_true_iff. split; apply Nat.leb_le; [|exact H2].
  destruct ls; [destruct (line_ c); discriminate|simpl; lia].
Qed.

Lemma current_buffer_put ctx b :
  current_buffer (set_buffer ctx (buffer_ref (get_current_window ctx)) b) = b.
Proof.
  unfold current_buffer, get_current_window.
  destruct ctx as [mb mn [? ? ? r1] [? ? ? r2] [|] g], r1, r2; reflexivity.
Qed.

Lemma current_buffer_goal ctx g :
  current_buffer (set_goal_column ctx g) = current_buffer ctx.
Proof. destruct ctx; reflexivity. Qed.

Lemma set_goal_column_window ctx g :
  get_current_window (set_goal_column ctx g) = get_current_window ctx.
Proof. destruct ctx; reflexivity. Qed.

Lemma Buffer_set_valid b s : cursor_valid (Buffer_set b s) = true.
Proof.
  destruct (split_nl_not_nil s) as (l & ls & E).
  unfold Buffer_set. rewrite E. apply (cursor_valid_intro _ _ l); simpl; [reflexivity|lia].
Qed.

Lemma current_buffer_message ctx s :
  cursor_valid (current_buffer ctx) = true ->
  cursor_valid (current_buffer (set_buffer ctx BR_minibuffer (Buffer_set (minibuffer ctx) s))) = true.
Proof.
  unfold current_buffer, get_current_window.
  destruct ctx as [mb mn [? ? ? r1] [? ? ? r2] [|] g], r1, r2; simpl;
    auto using Buffer_set_valid.
Qed.

(** Symbolic execution of the command monad, one statement at a time. *)

Lemma bind_cur_ref {B} (k : BufferRef -> M B) ctx :
  bind cur_ref k ctx = k (buffer_ref (get_current_window ctx)) ctx.
Proof. reflexivity. Qed.

Lemma bind_get_buffer {B} r (k : Buffer -> M B) ctx :
  bind (get_buffer r) k ctx = k (resolve_ref ctx r) ctx.
Proof. reflexivity. Qed.

Lemma bind_gets {A B} (f : Context -> A) (k : A -> M B) ctx :
  bind (gets f) k ctx = k (f ctx) ctx.
Proof. reflexivity. Qed.

Lemma bind_lift_some {A B} (a : A) (k : A -> M B) ctx :
  bind (lift (Some a)) k ctx = k a ctx.
Proof. reflexivity. Qed.

Lemma bind_lift_none {A B} (k : A -> M B) ctx :
  bind (lift None) k ctx = None.
Proof. reflexivity. Qed.

Lemma bind_modify {B} f (k : unit -> M B) ctx :
  bind (modify f) k ctx = k tt (f ctx).
Proof. reflexivity. Qed.

Lemma bind_put_buffer {B} r b (k : unit -> M B) ctx :
  bind (put_buffer r b) k ctx = k tt (set_buffer ctx r b).
Proof. reflexivity. Qed.

Lemma bind_message {B} s (k : unit -> M B) ctx :
  bind (message s) k ctx =
  k tt (set_buffer ctx BR_minibuffer (Buffer_set (minibuffer ctx) s)).
Proof. reflexivity. Qed.

Lemma bind_ret {A B} (a : A) (k : A -> M B) ctx : bind (ret a) k ctx = k a ctx.
Proof. reflexivity. Qed.

Lemma bind_assoc {A B C} (m : M A) (f : A -> M B) (g : B -> M C) ctx :
  bind (bind m f) g ctx = bind m (fun x => bind (f x) g) ctx.
Proof. unfold bind. destruct (m ctx) as [[a c]|]; reflexivity. Qed.

Lemma bind_some {A B} (m : M A) (k : A -> M B) ctx a ctx1 :
  m ctx = Some (a, ctx1) -> bind m k ctx = k a ctx1.
Proof. unfold bind. intros ->. reflexivity. Qed.

Lemma ret_eq {A} (a : A) ctx : ret a ctx = Some (a, ctx).
Proof. reflexivity. Qed.

Lemma set_buffer_window ctx r b :
  get_current_window (set_buffer ctx r b) = get_current_window ctx.
Proof. destruct ctx, r; reflexivity. Qed.

Lemma set_buffer_focus ctx r b :
  minibuffer_focused (set_buffer ctx r b) = minibuffer_focused ctx.
Proof. destruct ctx, r; reflexivity. Qed.

Lemma set_buffer_goal ctx r b :
  goal_column (set_buffer ctx r b) = goal_column ctx.
Proof. destruct ctx, r; reflexivity. Qed.

Lemma set_buffer_minibuffer_main ctx b :
  main_buffer (set_buffer ctx BR_minibuffer b) = main_buffer ctx.
Proof. destruct ctx; reflexivity. Qed.

Lemma resolve_set_goal ctx g r :
  resolve_ref (set_goal_column ctx g) r = resolve_ref ctx r.
Proof. destruct ctx, r; reflexivity. Qed.

Lemma get_line_some b l :
  nth_error (lines b) (line_ (cursor b)) = Some l ->
  get_line_unchecked b (line_ (cursor b)) = Some l.
Proof. intros H. exact H. Qed.

Ltac mrun :=
  repeat first
    [ rewrite bind_cur_ref | rewrite bind_get_buffer | rewrite bind_gets
    | rewrite bind_lift_some | rewrite bind_lift_none | rewrite bind_modify
    | rewrite bind_put_buffer | rewrite bind_message | rewrite bind_ret
    | rewrite bind_assoc | rewrite ret_eq
    | rewrite set_buffer_window | rewrite set_goal_column_window
    | rewrite resolve_set_buffer | rewrite resolve_set_goal
    | progress cbv beta zeta ].

Lemma current_buffer_put' ctx r b :
  r = buffer_ref (get_current_window ctx) -> current_buffer (set_buffer ctx r b) = b.
Proof. intros ->. apply current_buffer_put. Qed.

Lemma nth_error_lt {A} (l : list A) n : n < length l -> exists x, nth_error l n = Some x.
Proof.
  intros H. destruct (nth_error l n) eqn:E; [eauto|].
  apply nth_error_None in E. lia.
Qed.

Lemma next_line_valid term ctx :
  cursor_valid (current_buffer ctx) = true ->
  exists res ctx', next_line term ctx = Some (res, ctx') /\
                   cursor_valid (current_buffer ctx') = true.
Proof.
  intros Hv. destruct (cursor_valid_inv _ Hv) as (l & Hl & Hc & Hn).
  unfold next_line. mrun. fold (current_buffer ctx).
  rewrite usub_le by exact Hn. mrun.
  destruct (line_ (cursor (current_buffer ctx)) <? lines_count (current_buffer ctx) - 1) eqn:E.
  - apply Nat.ltb_lt in E. unfold get_or_set_gaol_column. mrun.
    fold (current_buffer ctx).
    destruct (nth_error_lt (lines (current_buffer ctx)) (line_ (cursor (current_buffer ctx)) + 1))
      as (l2 & Hl2); [unfold lines_count in E; lia|].
    unfold get_line_unchecked, vec_index. rewrite Hl2. mrun.
    eexists _, _. split; [reflexivity|].
    rewrite current_buffer_put' by (rewrite set_goal_column_window; reflexivity).
    apply (cursor_valid_intro _ _ l2); [exact Hl2|]. simpl. lia.
  - mrun. eexists _, _. split; [reflexivity|]. apply current_buffer_message; exact Hv.
Qed.

Lemma previous_line_valid term ctx :
  cursor_valid (current_buffer ctx) = true ->
  exists res ctx', previous_line term ctx = Some (res, ctx') /\
                   cursor_valid (current_buffer ctx') = true.
Proof.
  intros Hv. destruct (cursor_valid_inv _ Hv) as (l & Hl & Hc & Hn).
  unfold previous_line. mrun. fold (current_buffer ctx).
  destruct (0 <? line_ (cursor (current_buffer ctx))) eqn:E.
  - apply Nat.ltb_lt in E. unfold get_or_set_gaol_column. mrun.
    fold (current_buffer ctx).
    destruct (nth_error_lt (lines (current_buffer ctx)) (line_ (cursor (current_buffer ctx)) - 1))
      as (l2 & Hl2).
    { assert (line_ (cursor (current_buffer ctx)) < length (lines (current_buffer ctx)))
        by (apply nth_error_Some; congruence). lia. }
    unfold get_line_unchecked, vec_index. rewrite Hl2. mrun.
    eexists _, _. split; [reflexivity|].
    rewrite current_buffer_put' by (rewrite set_goal_column_window; reflexivity).
    apply (cursor_valid_intro _ _ l2); [exact Hl2|]. simpl. lia.
  - mrun. eexists _, _. split; [reflexivity|]. apply current_buffer_message; exact Hv.
Qed.

Lemma move_end_of_line_ok term ctx :
  cursor_valid (current_buffer ctx) = true ->
  exists ctx', move_end_of_line term ctx = Some (Ok, ctx') /\
               cursor_valid (current_buffer ctx') = true.
Proof.
  intros Hv. destruct (cursor_valid_inv _ Hv) as (l & Hl & Hc & Hn).
  unfold move_end_of_line. mrun. fold (current_buffer ctx).
  rewrite (get_line_some _ _ Hl). mrun.
  eexists; split; [reflexivity|]. rewrite current_buffer_put.
  apply (cursor_valid_intro _ _ l); [exact Hl|]. simpl. lia.
Qed.

Lemma forward_char_valid term ctx :
  cursor_valid (current_buffer ctx) = true ->
  exists res ctx', forward_char term ctx = Some (res, ctx') /\
                   cursor_valid (current_buffer ctx') = true.
Proof.
  intros Hv. destruct (cursor_valid_inv _ Hv) as (l & Hl & Hc & Hn).
  unfold forward_char. mrun. fold (current_buffer ctx).
  rewrite (get_line_some _ _ Hl). mrun.
  destruct (column (cursor (current_buffer ctx)) <? length l) eqn:E.
  - apply Nat.ltb_lt in E. mrun. eexists _, _. split; [reflexivity|].
    rewrite current_buffer_put. apply (cursor_valid_intro _ _ l); [exact Hl|]. simpl. lia.
  - mrun. set (ctx1 := set_buffer ctx (buffer_ref (get_current_window ctx))
                   (set_cursor (current_buffer ctx)
                      (mkCursor (line_ (cursor (current_buffer ctx))) 0))).
    destruct (next_line_valid term ctx1) as (res & ctx' & Hnl & Hv').
    { unfold ctx1. rewrite current_buffer_put.
      apply (cursor_valid_intro _ _ l); [exact Hl|]. simpl. lia. }
    rewrite (bind_some _ _ _ _ _ Hnl).
    destruct res; mrun; eexists _, _; (split; [reflexivity|exact Hv']).
Qed.

Lemma backward_char_valid term ctx :
  cursor_valid (current_buffer ctx) = true ->
  exists res ctx', backward_char term ctx = Some (res, ctx') /\
                   cursor_valid (current_buffer ctx') = true.
Proof.
  intros Hv. destruct (cursor_valid_inv _ Hv) as (l & Hl & Hc & Hn).
  unfold backward_char. mrun. fold (current_buffer ctx).
  destruct (0 <? column (cursor (current_buffer ctx))) eqn:E.
  - apply Nat.ltb_lt in E. mrun. eexists _, _. split; [reflexivity|].
    rewrite current_buffer_put. apply (cursor_valid_intro _ _ l); [exact Hl|]. simpl. lia.
  - destruct (previous_line_valid term ctx Hv) as (res & ctx1 & Hpl & Hv1).
    rewrite (bind_some _ _ _ _ _ Hpl).
    destruct res; mrun.
    + destruct (move_end_of_line_ok term ctx1 Hv1) as (ctx' & Hme & Hv').
      rewrite (bind_some _ _ _ _ _ Hme). mrun.
      eexists _, _. split; [reflexivity|exact Hv'].
    + eexists _, _. split; [reflexivity|exact Hv1].
Qed.

Lemma position_lt {A} (p : A -> bool) l i : position p l = Some i -> i < length l.
Proof.
  revert i. induction l as [|x l IH]; simpl; intros i H; [discriminate|].
  destruct (p x); [inversion H; lia|].
  destruct (position p l) as [j|] eqn:E; [|discriminate].
  inversion H; subst. specialize (IH j eq_refl). lia.
Qed.

Lemma chars_length_le l : length (chars l) <= length l.
Proof.
  induction l as [l IH] using (induction_ltof1 _ (@length byte)).
  unfold ltof in IH. destruct l as [|b t]; [simpl; lia|].
  cbn [chars].
  destruct (_ <? 128)%N; [cbn [length]; specialize (IH t); simpl in IH; lia|].
  destruct (_ <? 224)%N; [|destruct (_ <? 240)%N].
  - destruct t as [|c1 t1]; cbn [length]; [lia|].
    specialize (IH t1); simpl in IH; lia.
  - destruct t as [|c1 [|c2 t2]]; cbn [length]; [lia|lia|].
    specialize (IH t2); simpl in IH; lia.
  - destruct t as [|c1 [|c2 [|c3 t3]]]; cbn [length]; [lia|lia|lia|].
    specialize (IH t3); simpl in IH; lia.
Qed.

Lemma get_line_indentation_le l : get_line_indentation l <= length l.
Proof.
  unfold get_line_indentation. pose proof (chars_length_le l).
  destruct (position _ (chars l)) eqn:E; [apply position_lt in E; lia|lia].
Qed.

Lemma move_beginning_of_line_valid term ctx :
  cursor_valid (current_buffer ctx) = true ->
  exists ctx', move_beginning_of_line term ctx = Some (Ok, ctx') /\
               cursor_valid (current_buffer ctx') = true.
Proof.
  intros Hv. destruct (cursor_valid_inv _ Hv) as (l & Hl & Hc & Hn).
  unfold move_beginning_of_line. mrun. fold (current_buffer ctx).
  rewrite (get_line_some _ _ Hl). mrun.
  eexists; split; [reflexivity|]. rewrite current_buffer_put.
  apply (cursor_valid_intro _ _ l); [exact Hl|]. simpl.
  pose proof (get_line_indentation_le l).
  destruct (_ <=? _); lia.
Qed.

Lemma indent_line_valid term ctx :
  cursor_valid (current_buffer ctx) = true ->
  exists ctx', indent_line term ctx = Some (Ok, ctx') /\
               cursor_valid (current_buffer ctx') = true.
Proof.
  intros Hv. destruct (cursor_valid_inv _ Hv) as (l & Hl & Hc & Hn).
  unfold indent_line. mrun. fold (current_buffer ctx).
  rewrite (get_line_some _ _ Hl). mrun.
  destruct (_ <? get_line_indentation l); mrun; (eexists; split; [reflexivity|]).
  - rewrite current_buffer_put.
    apply (cursor_valid_intro _ _ l); [exact Hl|]. simpl.
    apply get_line_indentation_le.
  - exact Hv.
Qed.

Lemma beginning_of_buffer_valid term ctx :
  cursor_valid (current_buffer ctx) = true ->
  exists ctx', beginning_of_buffer term ctx = Some (Ok, ctx') /\
               cursor_valid (current_buffer ctx') = true.
Proof.
  intros Hv. destruct (cursor_valid_inv _ Hv) as (l & Hl & Hc & Hn).
  unfold beginning_of_buffer. mrun. fold (current_buffer ctx).
  eexists; split; [reflexivity|]. rewrite current_buffer_put.
  destruct (nth_error_lt (lines (current_buffer ctx)) 0) as (l0 & H0);
    [unfold lines_count in Hn; lia|].
  apply (cursor_valid_intro _ _ l0); [exact H0|]. simpl. lia.
Qed.

Lemma end_of_buffer_valid term ctx :
  cursor_valid (current_buffer ctx) = true ->
  exists ctx', end_of_buffer term ctx = Some (Ok, ctx') /\
               cursor_valid (current_buffer ctx') = true.
Proof.
  intros Hv. destruct (cursor_valid_inv _ Hv) as (l & Hl & Hc & Hn).
  unfold end_of_buffer. mrun. fold (current_buffer ctx).
  rewrite usub_le by exact Hn. mrun.
  destruct (nth_error_lt (lines (current_buffer ctx)) (lines_count (current_buffer ctx) - 1))
    as (l1 & H1); [unfold lines_count in *; lia|].
  unfold get_line_unchecked, vec_index. rewrite H1. mrun.
  eexists; split; [reflexivity|]. rewrite current_buffer_put.
  apply (cursor_valid_intro _ _ l1); [exact H1|]. simpl. lia.
Qed.

(** ** Splitting and joining lines *)

Lemma vec_insert_after {A} (pre post : list A) x y :
  vec_insert (pre ++ x :: post) (length pre + 1) y = Some (pre ++ x :: y :: post).
Proof.
  assert (E : pre ++ x :: post = (pre ++ [x]) ++ post)
    by (rewrite <- app_assoc; reflexivity).
  rewrite E. replace (length pre + 1) with (length (pre ++ [x]))
    by (rewrite length_app; simpl; lia).
  unfold vec_insert. rewrite (proj2 (Nat.leb_le _ _)) by (rewrite !length_app; simpl; lia).
  rewrite firstn_app, skipn_app, Nat.sub_diag, firstn_all, skipn_all. simpl.
  rewrite app_nil_r, <- app_assoc. reflexivity.
Qed.

Lemma vec_remove_after {A} (pre post : list A) x y :
  vec_remove (pre ++ x :: y :: post) (length pre + 1) = Some (y, pre ++ x :: post).
Proof.
  assert (E : pre ++ x :: y :: post = (pre ++ [x]) ++ y :: post)
    by (rewrite <- app_assoc; reflexivity).
  rewrite E. replace (length pre + 1) with (length (pre ++ [x]))
    by (rewrite length_app; simpl; lia).
  rewrite vec_remove_middle, <- app_assoc. reflexivity.
Qed.

Lemma current_buffer_split ctx l :
  nth_error (lines (current_buffer ctx)) (line_ (cursor (current_buffer ctx))) = Some l ->
  exists pre post,
    current_buffer ctx = mkBuffer (pre ++ l :: post)
                           (mkCursor (length pre) (column (cursor (current_buffer ctx)))).
Proof.
  intros H. destruct (nth_error_split _ _ H) as (pre & post & Hls & Hlen).
  exists pre, post. destruct (current_buffer ctx) as [ls [ln col]]. simpl in *.
  subst. reflexivity.
Qed.

Lemma is_char_boundary_le l i : is_char_boundary l i = true -> i <= length l.
Proof.
  unfold is_char_boundary. rewrite orb_true_iff, Nat.eqb_eq. intros [->|H]; [lia|].
  destruct (nth_error l i) eqn:E.
  - assert (i < length l) by (apply nth_error_Some; congruence). lia.
  - apply Nat.eqb_eq in H. lia.
Qed.

Lemma newline_run term ctx pre post l col :
  current_buffer ctx = mkBuffer (pre ++ l :: post) (mkCursor (length pre) col) ->
  is_char_boundary l col = true ->
  newline term ctx =
  Some (Ok, set_buffer ctx (buffer_ref (get_current_window ctx))
              (mkBuffer (pre ++ firstn col l :: skipn col l :: post)
                        (mkCursor (length pre + 1) 0))).
Proof.
  intros Hb Hcb. unfold newline. mrun. fold (current_buffer ctx). rewrite Hb.
  cbn [lines cursor line_ column].
  unfold get_line_unchecked, vec_index. cbn [lines]. rewrite nth_error_middle'.
  mrun. rewrite Hcb. mrun. rewrite vec_set_middle. mrun.
  rewrite vec_insert_after. mrun. reflexivity.
Qed.

Lemma delete_backward_char_join_run term ctx pre post (a b2 : line) :
  current_buffer ctx = mkBuffer (pre ++ a :: b2 :: post) (mkCursor (length pre + 1) 0) ->
  delete_backward_char term ctx =
  Some (Ok, set_buffer ctx (buffer_ref (get_current_window ctx))
              (mkBuffer (pre ++ (a ++ b2) :: post) (mkCursor (length pre) (length a)))).
Proof.
  intros Hb. unfold delete_backward_char. mrun. fold (current_buffer ctx). rewrite Hb.
  cbn [lines cursor line_ column].
  rewrite Nat.add_1_r. cbn [Nat.ltb Nat.leb]. rewrite <- Nat.add_1_r.
  rewrite vec_remove_after. mrun.
  replace (length pre + 1 - 1) with (length pre) by lia.
  unfold vec_index. rewrite nth_error_middle'. mrun.
  rewrite vec_set_middle. mrun. reflexivity.
Qed.

Lemma length_firstn_le {A} n (l : list A) : n <= length l -> length (firstn n l) = n.
Proof. intros H. rewrite length_firstn. lia. Qed.

(** ** Extra properties of the commands *)

(** [newline] splits the cursor's line at the cursor column (a character
    boundary) into two lines and puts the cursor at the start of the
    second one; [delete_backward_char] right after it gives back exactly
    the editor state before. *)
Theorem newline_delete_backward_char_roundtrip term ctx l :
  let b := current_buffer ctx in
  nth_error (lines b) (line_ (cursor b)) = Some l ->
  is_char_boundary l (column (cursor b)) = true ->
  exists ctx1,
    newline term ctx = Some (Ok, ctx1) /\
    lines (current_buffer ctx1) =
      firstn (line_ (cursor b)) (lines b) ++
      firstn (column (cursor b)) l :: skipn (column (cursor b)) l ::
      skipn (S (line_ (cursor b))) (lines b) /\
    cursor (current_buffer ctx1) = mkCursor (line_ (cursor b) + 1) 0 /\
    delete_backward_char term ctx1 = Some (Ok, ctx).
Proof.
  cbv zeta. intros Hl Hcb.
  pose proof (is_char_boundary_le _ _ Hcb) as Hle.
  destruct (current_buffer_split ctx l Hl) as (pre & post & Hb).
  remember (column (cursor (current_buffer ctx))) as col eqn:Hcol.
  rewrite Hb. cbn [lines cursor line_ column].
  rewrite (newline_run term ctx pre post l col Hb Hcb).
  eexists. split; [reflexivity|].
  rewrite current_buffer_put. cbn [lines cursor].
  replace (firstn (length pre) (pre ++ l :: post)) with pre
    by (rewrite firstn_app, Nat.sub_diag, firstn_all; simpl; rewrite app_nil_r; reflexivity).
  replace (skipn (S (length pre)) (pre ++ l :: post)) with post
    by (rewrite skipn_app, skipn_all2 by lia; replace (S (length pre) - length pre) with 1 by lia;
        reflexivity).
  split; [reflexivity|]. split; [reflexivity|].
  rewrite (delete_backward_char_join_run term _ pre post (firstn col l) (skipn col l))
    by (rewrite current_buffer_put; reflexivity).
  rewrite set_buffer_window, set_buffer_set_buffer, firstn_skipn, length_firstn_le by exact Hle.
  assert (E : forall M, M = current_buffer ctx ->
               Some (Ok, set_buffer ctx (buffer_ref (get_current_window ctx)) M) =
               Some (Ok, ctx))
    by (intros M ->; unfold current_buffer; now rewrite set_buffer_resolve).
  apply E. symmetry. exact Hb.
Qed.

(** ** Inserting characters *)

Lemma cont_byte m :
  (m < 64)%N ->
  128 <= Byte.to_nat (byte_of_N (N.lor 128 m)) < 192.
Proof.
  intros H. rewrite <- (N2Nat.id m).
  assert (Hk : N.to_nat m < 64) by lia. revert Hk. generalize (N.to_nat m). intros k Hk.
  do 64 (destruct k as [|k]; [vm_compute; split; repeat constructor|]). lia.
Qed.

Lemma land63_lt n : (N.land n 63 < 64)%N.
Proof.
  change 63%N with (N.ones 6). rewrite N.land_ones. apply N.mod_lt. discriminate.
Qed.

Lemma utf8_encode_second ch :
  (128 <= ch)%N ->
  exists b0 b1 rest, utf8_encode ch = b0 :: b1 :: rest /\
                     128 <= Byte.to_nat b1 < 192.
Proof.
  intros H. unfold utf8_encode.
  destruct (ch <? 128)%N eqn:E1; [apply N.ltb_lt in E1; lia|].
  destruct (ch <? 2048)%N; [|destruct (ch <? 65536)%N];
    (do 3 eexists; split; [reflexivity|apply cont_byte, land63_lt]).
Qed.

Lemma insert_char_run ch ctx pre post l col :
  current_buffer ctx = mkBuffer (pre ++ l :: post) (mkCursor (length pre) col) ->
  is_char_boundary l col = true ->
  insert_char ch ctx =
  Some (tt, set_buffer ctx (buffer_ref (get_current_window ctx))
              (mkBuffer (pre ++ (firstn col l ++ utf8_encode ch ++ skipn col l) :: post)
                        (mkCursor (length pre) (col + 1)))).
Proof.
  intros Hb Hcb. unfold insert_char. mrun. fold (current_buffer ctx). rewrite Hb.
  cbn [lines cursor line_ column].
  unfold get_line_unchecked, vec_index. cbn [lines]. rewrite nth_error_middle'.
  mrun. unfold string_insert. rewrite Hcb. mrun. rewrite vec_set_middle. mrun.
  unfold put_buffer, modify. reflexivity.
Qed.

Lemma is_char_boundary_cont l i b :
  0 < i -> nth_error l i = Some b -> 128 <= Byte.to_nat b < 192 ->
  is_char_boundary l i = false.
Proof.
  intros Hi Hn Hb. unfold is_char_boundary. rewrite Hn.
  destruct i; [lia|]. cbn [Nat.eqb orb].
  rewrite (proj2 (Nat.ltb_ge _ _)) by lia. rewrite (proj2 (Nat.leb_gt _ _)) by lia.
  reflexivity.
Qed.

Lemma insert_char_fail ch ctx pre post l col :
  current_buffer ctx = mkBuffer (pre ++ l :: post) (mkCursor (length pre) col) ->
  is_char_boundary l col = false ->
  insert_char ch ctx = None.
Proof.
  intros Hb Hcb. unfold insert_char. mrun. fold (current_buffer ctx). rewrite Hb.
  cbn [lines cursor line_ column].
  unfold get_line_unchecked, vec_index. cbn [lines]. rewrite nth_error_middle'.
  mrun. unfold string_insert. rewrite Hcb. mrun. reflexivity.
Qed.

Lemma firstn_middle (pre post : list line) l :
  firstn (length pre) (pre ++ l :: post) = pre.
Proof. rewrite firstn_app, Nat.sub_diag, firstn_all. simpl. apply app_nil_r. Qed.

Lemma skipn_middle (pre post : list line) l :
  skipn (S (length pre)) (pre ++ l :: post) = post.
Proof.
  rewrite skipn_app, skipn_all2 by lia.
  replace (S (length pre) - length pre) with 1 by lia. reflexivity.
Qed.

Lemma byte_of_N_ascii ch : (ch < 128)%N -> Byte.to_nat (byte_of_N ch) < 128.
Proof.
  intros H. rewrite <- (N2Nat.id ch).
  assert (Hk : N.to_nat ch < 128) by lia. revert Hk. generalize (N.to_nat ch).
  intros k Hk.
  do 128 (destruct k as [|k]; [apply Nat.ltb_lt; vm_compute; reflexivity|]). lia.
Qed.

(** Typing an ASCII character and deleting it again: [insert_char] puts
    the character's byte at the cursor column (a character boundary) and
    moves the cursor one column right; [Buffer::backward_delete] then gives
    back the buffer as it was. *)
Theorem insert_char_ascii_backward_delete ctx l ch :
  let b := current_buffer ctx in
  nth_error (lines b) (line_ (cursor b)) = Some l ->
  is_char_boundary l (column (cursor b)) = true ->
  (ch < 128)%N ->
  exists ctx1,
    insert_char ch ctx = Some (tt, ctx1) /\
    lines (current_buffer ctx1) =
      firstn (line_ (cursor b)) (lines b) ++
      (firstn (column (cursor b)) l ++ byte_of_N ch :: skipn (column (cursor b)) l) ::
      skipn (S (line_ (cursor b))) (lines b) /\
    cursor (current_buffer ctx1) = mkCursor (line_ (cursor b)) (column (cursor b) + 1) /\
    backward_delete (current_buffer ctx1) = Some b.
Proof.
  cbv zeta. intros Hl Hcb Hch.
  pose proof (is_char_boundary_le _ _ Hcb) as Hle.
  destruct (current_buffer_split ctx l Hl) as (pre & post & Hb).
  remember (column (cursor (current_buffer ctx))) as col eqn:Hcol.
  rewrite Hb. cbn [lines cursor line_ column].
  rewrite (insert_char_run ch ctx pre post l col Hb Hcb).
  eexists. split; [reflexivity|].
  rewrite current_buffer_put. cbn [lines cursor].
  rewrite firstn_middle, skipn_middle.
  assert (He : utf8_encode ch = [byte_of_N ch])
    by (unfold utf8_encode; rewrite (proj2 (N.ltb_lt _ _) Hch); reflexivity).
  rewrite He. split; [reflexivity|]. split; [reflexivity|].
  unfold backward_delete. cbn [cursor lines line_ column].
  rewrite Nat.add_1_r. cbn [Nat.ltb Nat.leb]. replace (S col - 1) with col by lia.
  unfold vec_index. rewrite nth_error_middle'. cbn [obind].
  pose proof (string_remove_char_middle_ascii (firstn col l) (skipn col l) (byte_of_N ch)
                (byte_of_N_ascii ch Hch)) as Hr.
  rewrite length_firstn_le in Hr by exact Hle.
  replace (firstn col l ++ [byte_of_N ch] ++ skipn col l)
    with (firstn col l ++ byte_of_N ch :: skipn col l) by reflexivity.
  rewrite Hr. cbn [obind].
  rewrite firstn_skipn, vec_set_middle. reflexivity.
Qed.

Lemma insert_char_non_ascii_run ctx l ch ch2 :
  let b := current_buffer ctx in
  nth_error (lines b) (line_ (cursor b)) = Some l ->
  is_char_boundary l (column (cursor b)) = true ->
  (128 <= ch)%N ->
  exists ctx1,
    insert_char ch ctx = Some (tt, ctx1) /\
    2 <= length (utf8_encode ch) /\
    cursor (current_buffer ctx1) = mkCursor (line_ (cursor b)) (column (cursor b) + 1) /\
    insert_char ch2 ctx1 = None.
Proof.
  cbv zeta. intros Hl Hcb Hch.
  pose proof (is_char_boundary_le _ _ Hcb) as Hle.
  destruct (current_buffer_split ctx l Hl) as (pre & post & Hb).
  remember (column (cursor (current_buffer ctx))) as col eqn:Hcol.
  rewrite Hb. cbn [lines cursor line_ column].
  rewrite (insert_char_run ch ctx pre post l col Hb Hcb).
  destruct (utf8_encode_second ch Hch) as (b0 & b1 & rest & He & Hb1).
  eexists. split; [reflexivity|]. rewrite He. split; [simpl; lia|].
  rewrite current_buffer_put. split; [reflexivity|].
  apply (insert_char_fail ch2 _ pre post
           (firstn col l ++ (b0 :: b1 :: rest) ++ skipn col l) (col + 1)).
  - apply current_buffer_put.
  - apply (is_char_boundary_cont _ _ b1); [lia| |exact Hb1].
    rewrite nth_error_app2 by (rewrite length_firstn_le; lia).
    rewrite length_firstn_le by exact Hle.
    replace (col + 1 - col) with 1 by lia. reflexivity.
Qed.

(** [insert_char] of a character outside ASCII inserts its UTF-8 encoding
    (two bytes or more) but moves the column one byte only. The cursor then
    sits inside the character's encoding, and the next [insert_char], of
    any character, panics ([String::insert] off a character boundary). *)
Theorem insert_char_non_ascii_then_insert_panics ctx l ch ch2 :
  let b := current_buffer ctx in
  nth_error (lines b) (line_ (cursor b)) = Some l ->
  is_char_boundary l (column (cursor b)) = true ->
  (128 <= ch)%N ->
  exists ctx1,
    insert_char ch ctx = Some (tt, ctx1) /\
    2 <= length (utf8_encode ch) /\
    cursor (current_buffer ctx1) = mkCursor (line_ (cursor b)) (column (cursor b) + 1) /\
    insert_char ch2 ctx1 = None.
Proof. apply insert_char_non_ascii_run. Qed.

Lemma is_self_insert_from_code (c : N) :
  (c <= 255)%N ->
  is_self_insert [from_code c] = if is_control c then None else Some c.
Proof.
  intros H. unfold is_self_insert, as_char, from_code, char_from_u32. cbn [meta code].
  rewrite (proj2 (N.ltb_lt c 1114112)) by lia.
  rewrite (proj2 (N.leb_gt 55296 c)) by lia. reflexivity.
Qed.

Lemma is_control_printable (c : N) :
  (32 <= c <= 126)%N \/ (160 <= c <= 255)%N -> is_control c = false.
Proof.
  intros H. unfold is_control. apply orb_false_iff. split.
  - apply N.ltb_ge. destruct H; lia.
  - destruct H.
    + rewrite (proj2 (N.leb_gt 127 c)) by lia. reflexivity.
    + rewrite (proj2 (N.leb_gt c 159)) by lia. apply andb_false_r.
Qed.

(** Typing a byte in [0xA0..0xFF] on the terminal and then any printable
    byte: [read_key_timeout] makes each byte a key [Key::from_code(byte)],
    bound to no command. The first self-inserts the two-byte character
    [c] and moves the cursor by one byte, into its encoding; the second
    self-insert then panics in [String::insert]. *)
Theorem self_insert_high_byte_then_insert_panics term ctx l c c2 :
  let b := current_buffer ctx in
  nth_error (lines b) (line_ (cursor b)) = Some l ->
  is_char_boundary l (column (cursor b)) = true ->
  (160 <= c <= 255)%N ->
  (32 <= c2 <= 126)%N \/ (160 <= c2 <= 255)%N ->
  exists ctx1,
    process_binding term (Unbound [from_code c]) ctx = Some (None, ctx1) /\
    cursor (current_buffer ctx1) = mkCursor (line_ (cursor b)) (column (cursor b) + 1) /\
    process_binding term (Unbound [from_code c2]) ctx1 = None.
Proof.
  cbv zeta. intros Hl Hcb Hc Hc2.
  destruct (insert_char_non_ascii_run ctx l c c2 Hl Hcb ltac:(lia))
    as (ctx1 & H1 & _ & H3 & H4).
  exists ctx1. unfold process_binding.
  rewrite (is_self_insert_from_code c), is_control_printable by lia.
  rewrite (is_self_insert_from_code c2), is_control_printable
    by (try exact Hc2; destruct Hc2; lia).
  rewrite (bind_some _ _ _ _ _ H1). split; [reflexivity|]. split; [exact H3|].
  unfold bind. rewrite H4. reflexivity.
Qed.

(** [indent_line] on a line that starts with U+00A0 (bytes C2 A0)
    followed by a character that is not white space, with the cursor at
    column 0: [get_line_indentation] counts one character, so the byte
    column becomes 1, inside the encoding of U+00A0, and a following
    [insert_char] of any character panics. *)
Theorem indent_line_nbsp_then_insert_panics term ctx rest c cs ch :
  let b := current_buffer ctx in
  nth_error (lines b) (line_ (cursor b)) = Some (xc2 :: xa0 :: rest) ->
  column (cursor b) = 0 ->
  chars rest = c :: cs ->
  is_whitespace c = false ->
  exists ctx1, indent_line term ctx = Some (Ok, ctx1) /\
    cursor (current_buffer ctx1) = mkCursor (line_ (cursor b)) 1 /\
    insert_char ch ctx1 = None.
Proof.
  cbv zeta. intros Hl Hc0 Hr Hc.
  assert (Hi : get_line_indentation (xc2 :: xa0 :: rest) = 1).
  { apply (get_line_indentation_first _ [160%N] c cs); [|reflexivity|exact Hc].
    cbn [chars]. rewrite Hr. reflexivity. }
  destruct (current_buffer_split ctx _ Hl) as (pre & post & Hb).
  rewrite (indent_line_spec term ctx _ (get_line_some _ _ Hl)).
  fold (current_buffer ctx). rewrite Hi, Hc0. cbn [Nat.max].
  eexists. split; [reflexivity|].
  rewrite current_buffer_put. split; [reflexivity|].
  apply (insert_char_fail ch _ pre post (xc2 :: xa0 :: rest) 1); [|reflexivity].
  rewrite current_buffer_put, Hb. reflexivity.
Qed.

(** ** Killing lines *)

Lemma next_line_run term ctx (ls : list line) ln col (nx : line) :
  current_buffer ctx = mkBuffer ls (mkCursor ln col) ->
  ln + 1 < length ls -> nth_error ls (ln + 1) = Some nx ->
  next_line term ctx =
  Some (Ok, set_buffer (set_goal_column ctx (mkGoalColumn (Some (eff_goal ctx)) true))
              (buffer_ref (get_current_window ctx))
              (mkBuffer ls (mkCursor (ln + 1) (Nat.min (length nx) (eff_goal ctx))))).
Proof.
  intros Hb Hlt Hnx. unfold next_line. mrun. fold (current_buffer ctx). rewrite Hb.
  unfold lines_count. cbn [lines cursor line_ column].
  rewrite usub_le by lia. mrun.
  rewrite (proj2 (Nat.ltb_lt _ _)) by lia.
  unfold get_or_set_gaol_column. mrun.
  unfold get_line_unchecked, vec_index. cbn [lines]. rewrite Hnx. mrun.
  unfold eff_goal. rewrite Hb. reflexivity.
Qed.

Lemma set_buffer_goal_comm ctx r b g :
  set_buffer (set_goal_column ctx g) r b = set_goal_column (set_buffer ctx r b) g.
Proof. destruct ctx, r; reflexivity. Qed.

Lemma set_goal_column_buffer ctx g :
  current_buffer (set_goal_column ctx g) = current_buffer ctx.
Proof. destruct ctx; reflexivity. Qed.

Lemma kill_line_mid_run term ctx pre post l col :
  current_buffer ctx = mkBuffer (pre ++ l :: post) (mkCursor (length pre) col) ->
  col <> length l -> is_char_boundary l col = true ->
  kill_line term ctx =
  Some (Ok, set_buffer ctx (buffer_ref (get_current_window ctx))
              (mkBuffer (pre ++ firstn col l :: post) (mkCursor (length pre) col))).
Proof.
  intros Hb Hne Hcb. unfold kill_line. mrun. fold (current_buffer ctx). rewrite Hb.
  cbn [lines cursor line_ column].
  unfold get_line_unchecked, vec_index. cbn [lines]. rewrite nth_error_middle'. mrun.
  rewrite (proj2 (Nat.eqb_neq _ _) Hne). rewrite Hcb. mrun.
  rewrite vec_set_middle. mrun. reflexivity.
Qed.

Lemma kill_line_last_run term ctx pre l :
  current_buffer ctx = mkBuffer (pre ++ [l]) (mkCursor (length pre) (length l)) ->
  kill_line term ctx = Some (Ok, ctx).
Proof.
  intros Hb. unfold kill_line. mrun. fold (current_buffer ctx). rewrite Hb.
  cbn [lines cursor line_ column].
  unfold get_line_unchecked, vec_index. cbn [lines]. rewrite nth_error_middle'. mrun.
  rewrite Nat.eqb_refl. unfold lines_count. cbn [lines].
  rewrite usub_le by (rewrite length_app; simpl; lia). mrun.
  rewrite length_app. cbn [length].
  rewrite (proj2 (Nat.ltb_ge _ _)) by lia. reflexivity.
Qed.

Lemma kill_line_join_run term ctx pre post (l nx : line) :
  current_buffer ctx = mkBuffer (pre ++ l :: nx :: post) (mkCursor (length pre) (length l)) ->
  gc_column (goal_column ctx) = None ->
  kill_line term ctx =
  Some (Ok, set_goal_column
              (set_buffer ctx (buffer_ref (get_current_window ctx))
                 (mkBuffer (pre ++ (l ++ nx) :: post) (mkCursor (length pre) (length l))))
              (mkGoalColumn (Some 0) true)).
Proof.
  intros Hb Hg. unfold kill_line. mrun. fold (current_buffer ctx). rewrite Hb.
  cbn [lines cursor line_ column].
  unfold get_line_unchecked, vec_index. cbn [lines]. rewrite nth_error_middle'. mrun.
  rewrite Nat.eqb_refl. unfold lines_count. cbn [lines].
  rewrite usub_le by (rewrite length_app; simpl; lia). mrun.
  rewrite (proj2 (Nat.ltb_lt _ _)) by (rewrite length_app; simpl; lia).
  unfold delete_char, forward_char. mrun. fold (current_buffer ctx). rewrite Hb.
  cbn [lines cursor line_ column].
  unfold get_line_unchecked, vec_index. cbn [lines]. rewrite nth_error_middle'. mrun.
  rewrite Nat.ltb_irrefl. mrun.
  set (ctx_a := set_buffer ctx (buffer_ref (get_current_window ctx))
                  (set_cursor (mkBuffer (pre ++ l :: nx :: post)
                                 (mkCursor (length pre) (length l)))
                              (mkCursor (length pre) 0))).
  assert (Ha : current_buffer ctx_a = mkBuffer (pre ++ l :: nx :: post) (mkCursor (length pre) 0))
    by (apply current_buffer_put).
  assert (Hnx : nth_error (pre ++ l :: nx :: post) (length pre + 1) = Some nx).
  { replace (pre ++ l :: nx :: post) with ((pre ++ [l]) ++ nx :: post)
      by (rewrite <- app_assoc; reflexivity).
    replace (length pre + 1) with (length (pre ++ [l])) by (rewrite length_app; simpl; lia).
    apply nth_error_middle'. }
  rewrite (bind_some _ _ _ _ _
             (next_line_run term ctx_a _ _ _ nx Ha
                ltac:(rewrite length_app; simpl; lia) Hnx)).
  assert (He : eff_goal ctx_a = 0)
    by (unfold eff_goal, ctx_a; rewrite set_buffer_goal, Hg, current_buffer_put; reflexivity).
  rewrite He, Nat.min_0_r. mrun.
  erewrite bind_some;
    [|apply (delete_backward_char_join_run term _ pre post l nx);
      rewrite current_buffer_put'; [reflexivity|];
      rewrite set_goal_column_window; reflexivity].
  mrun. unfold ctx_a.
  rewrite set_buffer_window.
  rewrite !set_buffer_goal_comm, !set_buffer_set_buffer. reflexivity.
Qed.

Lemma nth_error_after_middle (pre post : list line) l i :
  nth_error (pre ++ l :: post) (S (length pre) + i) = nth_error post i.
Proof.
  rewrite nth_error_app2 by lia. replace (S (length pre) + i - length pre) with (S i) by lia.
  reflexivity.
Qed.

(** [kill_line] at a character boundary before the end of the cursor's
    line cuts the line at the cursor. At the end of the last line it does
    nothing. At the end of another line, with the goal column unset, it
    joins the next line to it. The cursor stays where it is. Only the
    current buffer changes, except that the join leaves the goal column at
    [Some 0], preserved (it runs [next_line]). *)
Theorem kill_line_cases term ctx l :
  let b := current_buffer ctx in
  let r := buffer_ref (get_current_window ctx) in
  let ln := line_ (cursor b) in
  let col := column (cursor b) in
  nth_error (lines b) ln = Some l ->
  (col <> length l -> is_char_boundary l col = true ->
   exists ctx', kill_line term ctx = Some (Ok, ctx') /\
     ctx' = set_buffer ctx r (current_buffer ctx') /\
     lines (current_buffer ctx') =
       firstn ln (lines b) ++ firstn col l :: skipn (S ln) (lines b) /\
     cursor (current_buffer ctx') = cursor b) /\
  (col = length l -> S ln = lines_count b -> kill_line term ctx = Some (Ok, ctx)) /\
  (col = length l -> forall nx, nth_error (lines b) (S ln) = Some nx ->
   gc_column (goal_column ctx) = None ->
   exists ctx', kill_line term ctx = Some (Ok, ctx') /\
     ctx' = set_goal_column (set_buffer ctx r (current_buffer ctx'))
              (mkGoalColumn (Some 0) true) /\
     lines (current_buffer ctx') =
       firstn ln (lines b) ++ (l ++ nx) :: skipn (S (S ln)) (lines b) /\
     cursor (current_buffer ctx') = cursor b).
Proof.
  cbv zeta. intros Hl.
  destruct (current_buffer_split ctx l Hl) as (pre & post & Hb).
  remember (column (cursor (current_buffer ctx))) as col eqn:Hcol.
  rewrite Hb. cbn [lines cursor line_ column]. unfold lines_count. cbn [lines].
  rewrite firstn_middle, skipn_middle. split; [|split].
  - intros Hne Hcb. rewrite (kill_line_mid_run term ctx pre post l col Hb Hne Hcb).
    eexists. split; [reflexivity|]. rewrite current_buffer_put.
    split; [reflexivity|]. split; reflexivity.
  - intros -> Hlen. rewrite length_app in Hlen. simpl in Hlen.
    destruct post; [|simpl in Hlen; lia].
    apply (kill_line_last_run term ctx pre l Hb).
  - intros -> nx Hnx Hg.
    rewrite <- (Nat.add_0_r (S (length pre))), nth_error_after_middle in Hnx.
    destruct post as [|nx' post]; [discriminate|]. simpl in Hnx. inversion Hnx; subst nx'.
    rewrite (kill_line_join_run term ctx pre post l nx Hb Hg).
    eexists. split; [reflexivity|].
    rewrite set_goal_column_buffer, current_buffer_put.
    split; [reflexivity|].
    replace (S (S (length pre))) with (S (length (pre ++ [l])))
      by (rewrite length_app; simpl; lia).
    replace (pre ++ l :: nx :: post) with ((pre ++ [l]) ++ nx :: post)
      by (rewrite <- app_assoc; reflexivity).
    rewrite skipn_middle. split; reflexivity.
Qed.

(** [forward_char] at the end of a line that is not the last one moves to
    the next line through [next_line]. With a goal column [g] already set
    (by the vertical motion just before), it lands on column
    [min (length next) g], not at the start of the next line. *)
Theorem forward_char_end_of_line_goal term ctx l nx g :
  let b := current_buffer ctx in
  let ln := line_ (cursor b) in
  nth_error (lines b) ln = Some l ->
  column (cursor b) = length l ->
  nth_error (lines b) (S ln) = Some nx ->
  gc_column (goal_column ctx) = Some g ->
  exists ctx', forward_char term ctx = Some (Ok, ctx') /\
    lines (current_buffer ctx') = lines b /\
    cursor (current_buffer ctx') = mkCursor (S ln) (Nat.min (length nx) g).
Proof.
  cbv zeta. intros Hl Hc Hnx Hg.
  unfold forward_char. mrun. fold (current_buffer ctx).
  rewrite (get_line_some _ _ Hl). mrun. rewrite Hc, Nat.ltb_irrefl. mrun.
  set (ctx_a := set_buffer ctx (buffer_ref (get_current_window ctx))
                  (set_cursor (current_buffer ctx)
                     (mkCursor (line_ (cursor (current_buffer ctx))) 0))).
  assert (Ha : current_buffer ctx_a =
               mkBuffer (lines (current_buffer ctx))
                        (mkCursor (line_ (cursor (current_buffer ctx))) 0))
    by (apply current_buffer_put).
  assert (Hlt : line_ (cursor (current_buffer ctx)) + 1 < length (lines (current_buffer ctx))).
  { rewrite Nat.add_1_r. apply nth_error_Some. congruence. }
  rewrite Nat.add_1_r in Hlt. rewrite <- Nat.add_1_r in Hnx.
  rewrite (bind_some _ _ _ _ _
             (next_line_run term ctx_a _ _ _ nx Ha ltac:(lia) Hnx)).
  assert (He : eff_goal ctx_a = g)
    by (unfold eff_goal, ctx_a; rewrite set_buffer_goal, Hg; reflexivity).
  rewrite He. mrun. eexists. split; [reflexivity|].
  rewrite current_buffer_put'
    by (rewrite set_goal_column_window; reflexivity).
  cbn [lines cursor]. rewrite Nat.add_1_r. split; reflexivity.
Qed.

(** The motion commands of [commands.rs] never panic on a buffer whose
    cursor is valid (its line exists and its column is at most the line
    length), and they leave the cursor valid. *)
Theorem motion_commands_keep_cursor_valid term ctx cmd :
  In cmd [move_beginning_of_line; move_end_of_line; forward_char; backward_char;
          next_line; previous_line; beginning_of_buffer; end_of_buffer;
          indent_line] ->
  cursor_valid (current_buffer ctx) = true ->
  exists res ctx', cmd term ctx = Some (res, ctx') /\
                   cursor_valid (current_buffer ctx') = true.
Proof.
  intros Hin Hv.
  simpl in Hin; intuition subst;
    first
      [ apply next_line_valid; exact Hv
      | apply previous_line_valid; exact Hv
      | apply forward_char_valid; exact Hv
      | apply backward_char_valid; exact Hv
      | exists Ok;
        first
          [ apply move_beginning_of_line_valid; exact Hv
          | apply move_end_of_line_ok; exact Hv
          | apply beginning_of_buffer_valid; exact Hv
          | apply end_of_buffer_valid; exact Hv
          | apply indent_line_valid; exact Hv ] ].
Qed.

Lemma set_current_window_self ctx :
  set_current_window ctx (get_current_window ctx) = ctx.
Proof.
  destruct ctx as [mb mn w1 w2 [|] g]; reflexivity.
Qed.

Lemma adjust_scroll_run term ctx wl :
  let w := get_current_window ctx in
  let ln := line_ (cursor (current_buffer ctx)) in
  window_lines w (get_current_window_region term ctx) = Some wl ->
  1 <= wl ->
  exists ctx', adjust_scroll term ctx = Some (tt, ctx') /\
    current_buffer ctx' = current_buffer ctx /\
    scroll_line (get_current_window ctx') <= ln /\
    ln < scroll_line (get_current_window ctx') + wl /\
    (scroll_line w <= ln < scroll_line w + wl -> ctx' = ctx).
Proof.
  cbv zeta. intros Hwl Hpos.
  cbv [adjust_scroll bind gets get_buffer lift modify ret]. cbv beta iota.
  fold (current_buffer ctx).
  set (region := get_current_window_region term ctx) in *.
  set (w0 := get_current_window ctx) in *.
  set (ln := line_ (cursor (current_buffer ctx))).
  assert (Hwl1 : forall n, window_lines (set_scroll_line w0 n) region = Some wl)
    by (intros n; exact Hwl).
  assert (Hcb : forall w, buffer_ref w = buffer_ref w0 ->
            current_buffer (set_current_window ctx w) = current_buffer ctx).
  { intros w Hw. unfold current_buffer at 1.
    rewrite set_current_window_get, set_current_window_resolve, Hw. reflexivity. }
  unfold last_visible_line. cbv [obind].
  destruct (Nat.ltb_spec ln (scroll_line w0)) as [Hlt|Hge].
  - rewrite Hwl1. unfold usub at 1.
    rewrite (proj2 (Nat.leb_le 1 (scroll_line (set_scroll_line w0 ln) + wl))) by (simpl; lia).
    change (scroll_line (set_scroll_line w0 ln)) with ln.
    destruct (Nat.ltb_spec (ln + wl - 1) ln) as [H1|H1]; [lia|].
    eexists; split; [reflexivity|].
    rewrite set_current_window_get. simpl scroll_line.
    split; [apply Hcb; reflexivity|]. split; [lia|]. split; [lia|]. lia.
  - rewrite Hwl. unfold usub at 1.
    rewrite (proj2 (Nat.leb_le 1 (scroll_line w0 + wl))) by lia.
    destruct (Nat.ltb_spec (scroll_line w0 + wl - 1) ln) as [H1|H1].
    + unfold usub.
      rewrite (proj2 (Nat.leb_le wl ln)) by lia.
      eexists; split; [reflexivity|].
      rewrite set_current_window_get. simpl scroll_line.
      split; [apply Hcb; reflexivity|]. split; [lia|]. split; [lia|]. lia.
    + eexists; split; [reflexivity|].
      rewrite set_current_window_get.
      split; [apply Hcb; reflexivity|]. split; [lia|]. split; [lia|].
      intros _. apply set_current_window_self.
Qed.

(** [adjust_scroll] does not panic when the focused window shows at least
    one line, and afterwards the cursor line lies among the lines it shows,
    [scroll_line .. scroll_line + window_lines - 1]. The buffer is not
    touched, and a window that already shows the cursor line is left as
    it is. *)
Theorem adjust_scroll_cursor_visible term ctx wl :
  let w := get_current_window ctx in
  let ln := line_ (cursor (current_buffer ctx)) in
  window_lines w (get_current_window_region term ctx) = Some wl ->
  1 <= wl ->
  exists ctx', adjust_scroll term ctx = Some (tt, ctx') /\
    current_buffer ctx' = current_buffer ctx /\
    scroll_line (get_current_window ctx') <= ln /\
    ln < scroll_line (get_current_window ctx') + wl /\
    (scroll_line w <= ln < scroll_line w + wl -> ctx' = ctx).
Proof. apply adjust_scroll_run. Qed.


Lemma set_current_window_region term ctx w :
  get_current_window_region term (set_current_window ctx w) =
  get_current_window_region term ctx.
Proof.
  unfold get_current_window_region, minibuffer_height, set_current_window.
  destruct (minibuffer_focused ctx); reflexivity.
Qed.

(** After [adjust_scroll] on a window that shows at least one line,
    [render_cursor] draws the cursor (it is never left undrawn above the
    window) on one of the window's text rows: terminal rows
    [top + 1 .. top + window_lines], so never on the modeline row. The
    drawn column is the cursor column shifted by the line-number padding. *)
Theorem render_cursor_after_adjust_scroll term ctx wl :
  let region := get_current_window_region term ctx in
  window_lines (get_current_window ctx) region = Some wl ->
  1 <= wl ->
  exists ctx' row col,
    adjust_scroll term ctx = Some (tt, ctx') /\
    render_cursor (get_current_window ctx') ctx'
      (get_current_window_region term ctx') = Some (row, col) /\
    top region + 1 <= row <= top region + wl /\
    col = column (cursor (current_buffer ctx)) +
          get_pad_width (get_current_window ctx') region + 1.
Proof.
  cbv zeta. intros Hwl Hpos.
  destruct (adjust_scroll_run term ctx wl Hwl Hpos)
    as (ctx' & Hrun & Hcb & Hlo & Hhi & _).
  pose proof (adjust_scroll_inv term ctx tt ctx' Hrun) as (w & -> & _).
  rewrite set_current_window_get in *.
  exists (set_current_window ctx w).
  unfold render_cursor. rewrite set_current_window_region.
  change (resolve_ref (set_current_window ctx w)
            (buffer_ref (get_current_window (set_current_window ctx w))))
    with (current_buffer (set_current_window ctx w)).
  rewrite Hcb, set_current_window_get. unfold usub.
  rewrite (proj2 (Nat.leb_le _ _) Hlo).
  do 2 eexists. split; [exact Hrun|]. split; [reflexivity|].
  split; [lia|reflexivity].
Qed.

(** [get_layout] tiles the terminal: the main window region starts at
    row 0, the minibuffer region starts where it ends, their heights add
    up to the terminal rows, and the minibuffer gets at most a third of
    them and no more rows than it has lines. The focused window's region
    is the minibuffer region or the main one. *)
Theorem get_layout_tiles term ctx :
  let L := get_layout term ctx in
  top (main_window_region L) = 0 /\
  top (minibuffer_region L) = height (main_window_region L) /\
  height (main_window_region L) + height (minibuffer_region L) = rows term /\
  height (minibuffer_region L) <= rows term / 3 /\
  height (minibuffer_region L) <= lines_count (minibuffer ctx) /\
  get_current_window_region term ctx =
    (if minibuffer_focused ctx then minibuffer_region L else main_window_region L).
Proof.
  cbv zeta. unfold get_layout, get_current_window_region, minibuffer_height.
  cbn [top height main_window_region minibuffer_region].
  pose proof (Nat.Div0.div_le_upper_bound (rows term) 3 (rows term) ltac:(lia)).
  repeat split; lia.
Qed.

(** The progress field of the modeline is computed without dividing by
    zero: once [last_visible_line] is defined, [buffer_progress] never
    panics, and a percentage it shows for a cursor inside the buffer is at
    most 100. *)
Theorem buffer_progress_defined w region b lv :
  last_visible_line w region = Some lv ->
  line_ (cursor b) < lines_count b ->
  exists p, buffer_progress w region b = Some p /\
            forall n, p = Percent n -> n <= 100.
Proof.
  intros Hlv Hln. unfold buffer_progress. rewrite Hlv. cbv [obind].
  destruct (scroll_line w =? 0); [eexists; split; [reflexivity|discriminate]|].
  destruct (Nat.leb_spec (lines_count b) lv); [eexists; split; [reflexivity|discriminate]|].
  destruct (Nat.eqb_spec (lines_count b) 0); [lia|].
  eexists; split; [reflexivity|]. intros m Hm. inversion Hm; subst.
  apply Nat.Div0.div_le_upper_bound; lia.
Qed.

(** ** Witnesses *)

Lemma newline_delete_backward_char_roundtrip_witness :
  let ctx := Context_new (mkBuffer [lit "abc"; lit "de"] (mkCursor 0 1)) in
  exists ctx1, newline (mkTerm 24 80) ctx = Some (Ok, ctx1) /\
    lines (current_buffer ctx1) = [lit "a"; lit "bc"; lit "de"] /\
    cursor (current_buffer ctx1) = mkCursor 1 0 /\
    delete_backward_char (mkTerm 24 80) ctx1 = Some (Ok, ctx).
Proof.
  intros ctx.
  destruct (newline_delete_backward_char_roundtrip (mkTerm 24 80) ctx (lit "abc")
              ltac:(reflexivity) ltac:(reflexivity)) as (c1 & H1 & H2 & H3 & H4).
  exists c1. split; [exact H1|]. split; [rewrite H2; reflexivity|].
  split; [exact H3|exact H4].
Defined.

Lemma insert_char_ascii_backward_delete_witness :
  let ctx := Context_new (mkBuffer [lit "abc"] (mkCursor 0 1)) in
  exists ctx1, insert_char 120 ctx = Some (tt, ctx1) /\
    lines (current_buffer ctx1) = [lit "axbc"] /\
    cursor (current_buffer ctx1) = mkCursor 0 2 /\
    backward_delete (current_buffer ctx1) = Some (current_buffer ctx).
Proof.
  intros ctx.
  destruct (insert_char_ascii_backward_delete ctx (lit "abc") 120
              ltac:(reflexivity) ltac:(reflexivity) ltac:(lia))
    as (c1 & H1 & H2 & H3 & H4).
  exists c1. split; [exact H1|]. split; [rewrite H2; reflexivity|].
  split; [exact H3|exact H4].
Defined.

Lemma insert_char_non_ascii_then_insert_panics_witness :
  let ctx := Context_new (mkBuffer [lit "abc"] (mkCursor 0 1)) in
  exists ctx1, insert_char 233 ctx = Some (tt, ctx1) /\
    cursor (current_buffer ctx1) = mkCursor 0 2 /\
    insert_char 97 ctx1 = None.
Proof.
  intros ctx.
  destruct (insert_char_non_ascii_then_insert_panics ctx (lit "abc") 233 97
              ltac:(reflexivity) ltac:(reflexivity) ltac:(lia))
    as (c1 & H1 & _ & H3 & H4).
  exists c1. split; [exact H1|]. split; [exact H3|exact H4].
Defined.

Lemma indent_line_nbsp_then_insert_panics_witness :
  let ctx := Context_new (mkBuffer [[xc2; xa0; x78]] (mkCursor 0 0)) in
  exists ctx1, indent_line (mkTerm 24 80) ctx = Some (Ok, ctx1) /\
    cursor (current_buffer ctx1) = mkCursor 0 1 /\
    insert_char 97 ctx1 = None.
Proof.
  intros ctx.
  exact (indent_line_nbsp_then_insert_panics (mkTerm 24 80) ctx [x78] 120%N [] 97
           eq_refl eq_refl eq_refl eq_refl).
Defined.

Lemma self_insert_high_byte_then_insert_panics_witness :
  let ctx := Context_new (mkBuffer [lit "abc"] (mkCursor 0 1)) in
  exists ctx1,
    process_binding (mkTerm 24 80) (Unbound [from_code 233]) ctx = Some (None, ctx1) /\
    lines (current_buffer ctx1) = [[x61; xc3; xa9; x62; x63]] /\
    process_binding (mkTerm 24 80) (Unbound [from_code 97]) ctx1 = None.
Proof.
  intros ctx.
  destruct (self_insert_high_byte_then_insert_panics (mkTerm 24 80) ctx (lit "abc") 233 97
              ltac:(reflexivity) ltac:(reflexivity) ltac:(lia) ltac:(lia))
    as (c1 & H1 & _ & H3).
  exists c1. split; [exact H1|]. split; [|exact H3].
  unfold ctx in H1. vm_compute in H1. injection H1 as <-. reflexivity.
Defined.

Lemma kill_line_cases_witness :
  let ctx1 := Context_new (mkBuffer [lit "abc"; lit "de"] (mkCursor 0 1)) in
  let ctx2 := Context_new (mkBuffer [lit "abc"] (mkCursor 0 3)) in
  let ctx3 := Context_new (mkBuffer [lit "abc"; lit "de"] (mkCursor 0 3)) in
  (exists c', kill_line (mkTerm 24 80) ctx1 = Some (Ok, c') /\
              lines (current_buffer c') = [lit "a"; lit "de"]) /\
  kill_line (mkTerm 24 80) ctx2 = Some (Ok, ctx2) /\
  (exists c', kill_line (mkTerm 24 80) ctx3 = Some (Ok, c') /\
              lines (current_buffer c') = [lit "abcde"] /\
              cursor (current_buffer c') = mkCursor 0 3).
Proof.
  intros ctx1 ctx2 ctx3. split; [|split].
  - destruct (proj1 (kill_line_cases (mkTerm 24 80) ctx1 (lit "abc") ltac:(reflexivity))
                ltac:(discriminate) ltac:(reflexivity)) as (c' & H1 & _ & H3 & _).
    exists c'. split; [exact H1|rewrite H3; reflexivity].
  - exact (proj1 (proj2 (kill_line_cases (mkTerm 24 80) ctx2 (lit "abc")
                           ltac:(reflexivity))) eq_refl eq_refl).
  - destruct (proj2 (proj2 (kill_line_cases (mkTerm 24 80) ctx3 (lit "abc")
                              ltac:(reflexivity))) eq_refl (lit "de") eq_refl eq_refl)
      as (c' & H1 & _ & H3 & H4).
    exists c'. split; [exact H1|]. split; [rewrite H3; reflexivity|exact H4].
Defined.

Lemma forward_char_end_of_line_goal_witness :
  let ctx := set_goal_column
               (Context_new (mkBuffer [lit "abc"; lit "de"] (mkCursor 0 3)))
               (mkGoalColumn (Some 1) false) in
  exists ctx', forward_char (mkTerm 24 80) ctx = Some (Ok, ctx') /\
               cursor (current_buffer ctx') = mkCursor 1 1.
Proof.
  intros ctx.
  destruct (forward_char_end_of_line_goal (mkTerm 24 80) ctx (lit "abc") (lit "de") 1
              ltac:(reflexivity) ltac:(reflexivity) ltac:(reflexivity) ltac:(reflexivity))
    as (c' & H1 & _ & H3).
  exists c'. split; [exact H1|exact H3].
Defined.

Lemma motion_commands_keep_cursor_valid_witness :
  let ctx := Context_new (mkBuffer [lit "abc"; lit "de"] (mkCursor 0 3)) in
  exists res ctx', forward_char (mkTerm 24 80) ctx = Some (res, ctx') /\
                   cursor_valid (current_buffer ctx') = true.
Proof.
  intros ctx.
  apply (motion_commands_keep_cursor_valid (mkTerm 24 80) ctx forward_char).
  - simpl; tauto.
  - reflexivity.
Defined.

Lemma adjust_scroll_cursor_visible_witness :
  let ctx := mkContext (mkBuffer [lit "a"; lit "b"; lit "c"] (mkCursor 1 0)) Buffer_new
               (mkWindow 5 false true BR_main) (mkWindow 0 false false BR_minibuffer)
               false (mkGoalColumn None false) in
  exists ctx', adjust_scroll (mkTerm 24 80) ctx = Some (tt, ctx') /\
               scroll_line (get_current_window ctx') = 1.
Proof.
  intros ctx.
  destruct (adjust_scroll_cursor_visible (mkTerm 24 80) ctx 22
              ltac:(reflexivity) ltac:(lia)) as (c' & H1 & _ & H3 & H4 & _).
  exists c'. split; [exact H1|].
  unfold ctx in H1. vm_compute in H1. injection H1 as <-. reflexivity.
Defined.

Lemma render_cursor_after_adjust_scroll_witness :
  let ctx := mkContext (mkBuffer [lit "a"; lit "b"; lit "c"] (mkCursor 1 0)) Buffer_new
               (mkWindow 5 false true BR_main) (mkWindow 0 false false BR_minibuffer)
               false (mkGoalColumn None false) in
  exists ctx', adjust_scroll (mkTerm 24 80) ctx = Some (tt, ctx') /\
    exists row, render_cursor (get_current_window ctx') ctx'
                  (get_current_window_region (mkTerm 24 80) ctx') = Some (row, 1) /\
                1 <= row <= 22.
Proof.
  intros ctx.
  destruct (render_cursor_after_adjust_scroll (mkTerm 24 80) ctx 22
              ltac:(reflexivity) ltac:(lia)) as (c' & row & col & H1 & H2 & H3 & H4).
  exists c'. split; [exact H1|]. exists row.
  assert (Hc : col = 1).
  { rewrite H4. unfold ctx in H1. vm_compute in H1. injection H1 as <-. reflexivity. }
  rewrite Hc in H2. split; [exact H2|exact H3].
Defined.

Lemma buffer_progress_defined_witness :
  let b := mkBuffer (repeat (lit "x") 10) (mkCursor 5 0) in
  buffer_progress (mkWindow 3 false true BR_main) (mkRegion 0 3) b = Some (Percent 60) /\
  60 <= 100.
Proof.
  intros b. split; [reflexivity|].
  destruct (buffer_progress_defined (mkWindow 3 false true BR_main) (mkRegion 0 3) b 4
              ltac:(reflexivity) ltac:(unfold b, lines_count; simpl; lia)) as (p & Hp & Hle).
  apply Hle. vm_compute in Hp. congruence.
Defined.
